(** * android_util_AssetManager: the JNI binding of the resource engine

    A shallow embedding of [core/jni/android_util_AssetManager.cpp] and the
    properties of the binding surface that the specification states.

    Conventions of the embedding:
    - fixed-width integers are [Z] with the conversion written out
      ([to_jint], [to_uint8], [to_uint16], [to_uint32]);
    - a native method returns an [Outcome]: a plain return, a return with a
      pending Java exception, a [CHECK] failure (process abort) or an access
      outside a pinned buffer;
    - the constants of the androidfw headers and the operations of the
      engine (AssetManager2, attribute application) are not part of this
      translation unit: they are the fields of the classes [AndroidFw],
      [Engine] and [AttributeResolution], and the theorems are stated for
      all of their instances; the examples that close the file take the
      platform's constants and a table-driven engine. *)

From Stdlib Require Import ZArith Lia Bool.
From stdpp Require Import base option list gmap strings.

Local Open Scope Z_scope.

(* ===================================================================== *)
(** * Fixed-width integers *)
(* ===================================================================== *)

Abbreviation jint := Z (only parsing).
Abbreviation jlong := Z (only parsing).
Abbreviation jsize := Z (only parsing).
Abbreviation jboolean := bool (only parsing).

Definition INT32_MIN : Z := - 2 ^ 31.
Definition INT32_MAX : Z := 2 ^ 31 - 1.

(** [static_cast<uintN_t>(x)] *)
Definition to_uint8 (x : Z) : Z := x mod 2 ^ 8.
Definition to_uint16 (x : Z) : Z := x mod 2 ^ 16.
Definition to_uint32 (x : Z) : Z := x mod 2 ^ 32.

(** [static_cast<jint>(x)], also the result of 32-bit signed arithmetic. *)
Definition to_jint (x : Z) : Z := (x + 2 ^ 31) mod 2 ^ 32 - 2 ^ 31.

(* ===================================================================== *)
(** * Constants of the androidfw headers *)
(* ===================================================================== *)

(** The enumerators this file reads from [androidfw/AssetManager2.h],
    [androidfw/AttributeResolution.h], [androidfw/ResourceTypes.h] and
    [androidfw/Asset.h]. *)
Class AndroidFw := {
  kInvalidCookie : Z;
  STYLE_NUM_ENTRIES : Z;
  STYLE_TYPE : Z;
  STYLE_DATA : Z;
  STYLE_ASSET_COOKIE : Z;
  STYLE_RESOURCE_ID : Z;
  STYLE_CHANGING_CONFIGURATIONS : Z;
  STYLE_DENSITY : Z;
  TYPE_NULL : Z;
  TYPE_REFERENCE : Z;
  DATA_NULL_UNDEFINED : Z;
  ACCESS_UNKNOWN : Z;
  ACCESS_RANDOM : Z;
  ACCESS_STREAMING : Z;
  ACCESS_BUFFER : Z
}.

(* ===================================================================== *)
(** * Data of the engine interface *)
(* ===================================================================== *)

(** [ResTable_config], the fields [NativeSetConfiguration] assigns. The
    locale part, written by [setBcp47Locale], is kept as the packed 32-bit
    [locale] word and the tag it was parsed from. *)
Record ResTable_config := {
  mcc : Z; mnc : Z;
  locale : Z; localeTag : string;
  orientation : Z; touchscreen : Z; density : Z;
  keyboard : Z; navigation : Z; inputFlags : Z;
  screenWidth : Z; screenHeight : Z;
  sdkVersion : Z;
  screenLayout : Z; uiMode : Z; smallestScreenWidthDp : Z;
  screenWidthDp : Z; screenHeightDp : Z;
  screenLayout2 : Z; colorMode : Z; grammaticalInflection : Z
}.

(** [memset(&configuration, 0, sizeof(configuration))] *)
Definition ResTable_config_zero : ResTable_config :=
  {| mcc := 0; mnc := 0; locale := 0; localeTag := EmptyString;
     orientation := 0; touchscreen := 0; density := 0;
     keyboard := 0; navigation := 0; inputFlags := 0;
     screenWidth := 0; screenHeight := 0; sdkVersion := 0;
     screenLayout := 0; uiMode := 0; smallestScreenWidthDp := 0;
     screenWidthDp := 0; screenHeightDp := 0;
     screenLayout2 := 0; colorMode := 0; grammaticalInflection := 0 |}.

(** [AssetManager2::SelectedValue] *)
Record SelectedValue := {
  cookie : Z;      (* ApkAssetsCookie *)
  data : Z;        (* uint32_t *)
  type : Z;        (* uint8_t *)
  flags : Z;       (* uint32_t *)
  resid : Z;       (* uint32_t *)
  config : ResTable_config
}.

(** [ResolvedBag::Entry] and [ResolvedBag]; [entry_count] is the length of
    [entries]. *)
Record Entry := {
  key : Z;            (* uint32_t *)
  entry_type : Z;     (* value.dataType *)
  entry_data : Z;     (* value.data *)
  entry_cookie : Z    (* ApkAssetsCookie *)
}.

Record ResolvedBag := {
  type_spec_flags : Z;
  entries : list Entry
}.

Definition entry_count (bag : ResolvedBag) : Z := Z.of_nat (length (entries bag)).

(* ===================================================================== *)
(** * The JNI side: exceptions, outcomes, Java objects *)
(* ===================================================================== *)

Inductive jthrowable :=
| IllegalArgumentException (msg : string)
| NullPointerException
| FileNotFoundException (msg : string)
| IndexOutOfBoundsException (msg : string)
| IOException
| OutOfMemoryError.

Inductive Outcome (A : Type) : Type :=
| Return (a : A)                    (* returns, no exception pending *)
| Throw (e : jthrowable) (a : A)    (* returns [a] with [e] pending *)
| Abort                             (* a CHECK failed *)
| Fault.                            (* access outside a pinned buffer *)
Arguments Return {A} a.
Arguments Throw {A} e a.
Arguments Abort {A}.
Arguments Fault {A}.

(** [CHECK(cond)] followed by the rest of the function. *)
Definition CHECK {A} (cond : bool) (k : Outcome A) : Outcome A :=
  if cond then k else Abort.

(** What the VM may refuse: the [k]-th [GetPrimitiveArrayCritical] call site
    of a native method (in source order) yields a buffer iff [critical k]; the
    buffer is a copy of the array iff [is_copy]. *)
Record JNIEnv := {
  critical : nat -> bool;
  is_copy : bool;
  new_array : bool     (* [NewIntArray] succeeds *)
}.

(** A Java object as its fields; a field holds an int or a reference. *)
Abbreviation jfieldID := string (only parsing).
Inductive jvalue :=
| JInt (z : Z)
| JRef (r : option Z).   (* [None] is null *)

Abbreviation jobject := (gmap string jvalue) (only parsing).

Definition SetIntField (obj : jobject) (f : jfieldID) (v : jint) : jobject :=
  <[f := JInt v]> obj.
Definition SetObjectField (obj : jobject) (f : jfieldID) (r : option Z) : jobject :=
  <[f := JRef r]> obj.

Record typedvalue_offsets_t := {
  mType : jfieldID;
  mData : jfieldID;
  mString : jfieldID;
  mAssetCookie : jfieldID;
  mResourceId : jfieldID;
  mChangingConfigurations : jfieldID;
  mDensity : jfieldID
}.

(** As [register_android_content_AssetManager] fills it. *)
Definition gTypedValueOffsets : typedvalue_offsets_t :=
  {| mType := "type";
     mData := "data";
     mString := "string";
     mAssetCookie := "assetCookie";
     mResourceId := "resourceId";
     mChangingConfigurations := "changingConfigurations";
     mDensity := "density" |}.

(* ===================================================================== *)
(** * Cookies and CopyValue *)
(* ===================================================================== *)

Section Cookies.
Context `{AndroidFw}.

(** [ApkAssetsCookie] is a 32-bit int, as [jint] is: [cookie + 1] and
    [cookie - 1] are 32-bit results. *)
Definition ApkAssetsCookieToJavaCookie (cookie : Z) : jint :=
  if decide (cookie <> kInvalidCookie) then to_jint (cookie + 1) else -1.

Definition JavaCookieToApkAssetsCookie (cookie : jint) : Z :=
  if decide (cookie > 0) then to_jint (cookie - 1) else kInvalidCookie.

Definition CopyValue (value : SelectedValue) (out_typed_value : jobject)
  : jint * jobject :=
  let o := SetIntField out_typed_value (mType gTypedValueOffsets)
             (to_jint (type value)) in
  let o := SetIntField o (mAssetCookie gTypedValueOffsets)
             (ApkAssetsCookieToJavaCookie (cookie value)) in
  let o := SetIntField o (mData gTypedValueOffsets) (to_jint (data value)) in
  let o := SetObjectField o (mString gTypedValueOffsets) None in
  let o := SetIntField o (mResourceId gTypedValueOffsets)
             (to_jint (resid value)) in
  let o := SetIntField o (mChangingConfigurations gTypedValueOffsets)
             (to_jint (flags value)) in
  let o := SetIntField o (mDensity gTypedValueOffsets)
             (to_jint (density (config value))) in
  (ApkAssetsCookieToJavaCookie (cookie value), o).

End Cookies.

(* ===================================================================== *)
(** * The engine behind the binding *)
(* ===================================================================== *)

(** The attribute-application calls hand the engine raw output buffers;
    what it leaves in them is a pair of int arrays. *)
Record AttrOutput := {
  out_values : list Z;
  out_indices : option (list Z)
}.

(** The operations of [AssetManager2], [ResTable_config] and
    [AttributeResolution] that the native methods call. A failed
    [base::expected] or an empty [std::optional] or [unique_ptr] is [None].
    [ResolveReference] updates its argument in place: [Some v] is the
    updated value of a successful call. *)
Class Engine := {
  AssetManager2 : Type;
  (** the object a native handle points to *)
  AssetManagerFromLong : jlong -> AssetManager2;
  GetResource : AssetManager2 -> Z -> bool -> Z -> option SelectedValue;
  ResolveReference : AssetManager2 -> SelectedValue -> option SelectedValue;
  GetBag : AssetManager2 -> Z -> option ResolvedBag;
  (** the constructor [SelectedValue(bag, entry)] *)
  SelectedValue_of_entry : ResolvedBag -> Entry -> SelectedValue;
  GetBagResIdStack : AssetManager2 -> Z -> option (list Z);
  Open : AssetManager2 -> string -> Z -> option jlong;
  OpenNonAsset : AssetManager2 -> string -> option Z -> Z -> option jlong;
  (** the packed [locale] word [setBcp47Locale] computes from a tag *)
  packBcp47Locale : string -> Z
}.

(** [ResTable_config::setBcp47Locale]: touches the locale part only. *)
Definition setBcp47Locale `{Engine} (tag : string) (c : ResTable_config)
  : ResTable_config :=
  {| mcc := mcc c; mnc := mnc c;
     locale := packBcp47Locale tag; localeTag := tag;
     orientation := orientation c; touchscreen := touchscreen c;
     density := density c;
     keyboard := keyboard c; navigation := navigation c;
     inputFlags := inputFlags c;
     screenWidth := screenWidth c; screenHeight := screenHeight c;
     sdkVersion := sdkVersion c;
     screenLayout := screenLayout c; uiMode := uiMode c;
     smallestScreenWidthDp := smallestScreenWidthDp c;
     screenWidthDp := screenWidthDp c; screenHeightDp := screenHeightDp c;
     screenLayout2 := screenLayout2 c; colorMode := colorMode c;
     grammaticalInflection := grammaticalInflection c |}.

(* ===================================================================== *)
(** * Native methods: configuration, assets, resources *)
(* ===================================================================== *)

(** What [NativeSetConfiguration] hands to [SetConfigurations] and
    [SetDefaultLocale]. *)
Record SetConfigurationCall := {
  configs : list ResTable_config;
  force_refresh_arg : bool;
  default_locale_int : Z
}.

(** A call of the engine's file layer, in the order made. *)
Inductive EngineCall :=
| CallOpen (path : string) (mode : Z)
| CallOpenNonAsset (path : string) (cookie : option Z) (mode : Z).

Inductive release_mode := Commit | JNI_ABORT.

(** [ReleasePrimitiveArrayCritical(array, buffer, mode)]: the contents of
    the array afterwards. *)
Definition ReleasePrimitiveArrayCritical (env : JNIEnv) (array buffer : list jint)
  (mode : release_mode) : list jint :=
  match mode with
  | Commit => buffer
  | JNI_ABORT => if is_copy env then array else buffer
  end.

(** [cursor[i] = v] on a buffer of [length buffer] ints. *)
Definition store (buffer : list jint) (i : Z) (v : jint) : option (list jint) :=
  if decide (0 <= i < Z.of_nat (length buffer))
  then Some (<[Z.to_nat i := v]> buffer)
  else None.

Inductive WriteResult :=
| Written (buffer : list jint)
| ResolveFailed (buffer : list jint)
| Overrun.

(** What a configuration should hold of a [screen_layout] argument: its
    low byte, and its round qualifier (bits 8 and 9) as a field of its own. *)
Definition layout_split (screen_layout : Z) (c : ResTable_config) : Prop :=
  screenLayout c = Z.land screen_layout 255
  /\ screenLayout2 c = Z.shiftr (Z.land screen_layout 768) 8
  /\ Z.testbit (screenLayout2 c) 0 = Z.testbit screen_layout 8
  /\ Z.testbit (screenLayout2 c) 1 = Z.testbit screen_layout 9.

Section Resources.
Context `{AndroidFw} `{Engine}.

Definition kScreenLayoutRoundMask : jint := 768.   (* 0x300 *)
Definition kScreenLayoutRoundShift : jint := 8.

(** [configs.resize(locale_count, configuration)] and the loop that sets
    each locale; a null element fails the CHECK. *)
Fixpoint locale_configs (configuration : ResTable_config)
  (locales : list (option string)) : option (list ResTable_config) :=
  match locales with
  | [] => Some []
  | None :: _ => None
  | Some tag :: rest =>
      match locale_configs configuration rest with
      | Some cs => Some (setBcp47Locale tag configuration :: cs)
      | None => None
      end
  end.

Definition NativeSetConfiguration (mcc mnc : jint)
  (default_locale : option string) (locales : option (list (option string)))
  (orientation touchscreen density keyboard keyboard_hidden navigation
   screen_width screen_height smallest_screen_width_dp screen_width_dp
   screen_height_dp screen_layout ui_mode color_mode grammatical_gender
   major_version : jint) (force_refresh : jboolean)
  : Outcome SetConfigurationCall :=
  let configuration :=
    {| mcc := to_uint16 mcc; mnc := to_uint16 mnc;
       locale := 0; localeTag := EmptyString;
       orientation := to_uint8 orientation;
       touchscreen := to_uint8 touchscreen;
       density := to_uint16 density;
       keyboard := to_uint8 keyboard;
       navigation := to_uint8 navigation;
       inputFlags := to_uint8 keyboard_hidden;
       screenWidth := to_uint16 screen_width;
       screenHeight := to_uint16 screen_height;
       sdkVersion := to_uint16 major_version;
       screenLayout := to_uint8 screen_layout;
       uiMode := to_uint8 ui_mode;
       smallestScreenWidthDp := to_uint16 smallest_screen_width_dp;
       screenWidthDp := to_uint16 screen_width_dp;
       screenHeightDp := to_uint16 screen_height_dp;
       screenLayout2 :=
         to_uint8 (Z.shiftr (Z.land screen_layout kScreenLayoutRoundMask)
                            kScreenLayoutRoundShift);
       colorMode := to_uint8 color_mode;
       grammaticalInflection := to_uint8 grammatical_gender |} in
  let locale_list := match locales with Some l => l | None => [] end in
  let configs :=
    match locale_list with
    | [] => Some [configuration]
    | _ => locale_configs configuration locale_list
    end in
  match configs with
  | None => Abort
  | Some cs =>
      let default_locale_int :=
        match default_locale with
        | Some tag => packBcp47Locale tag
        | None => 0
        end in
      Return {| configs := cs; force_refresh_arg := force_refresh;
                default_locale_int := default_locale_int |}
  end.

Definition bad_access_mode (access_mode : jint) : bool :=
  bool_decide (access_mode <> ACCESS_UNKNOWN) &&
  bool_decide (access_mode <> ACCESS_RANDOM) &&
  bool_decide (access_mode <> ACCESS_STREAMING) &&
  bool_decide (access_mode <> ACCESS_BUFFER).

(** A null [jstring] makes [ScopedUtfChars] raise NullPointerException and
    [c_str()] null. The first component is the list of engine calls made. *)
Definition NativeOpenAsset (ptr : jlong) (asset_path : option string)
  (access_mode : jint) : list EngineCall * Outcome jlong :=
  match asset_path with
  | None => ([], Throw NullPointerException 0)
  | Some asset_path_utf8 =>
      if bad_access_mode access_mode
      then ([], Throw (IllegalArgumentException "Bad access mode") 0)
      else
        let assetmanager := AssetManagerFromLong ptr in
        ([CallOpen asset_path_utf8 access_mode],
         match Open assetmanager asset_path_utf8 access_mode with
         | None => Throw (FileNotFoundException asset_path_utf8) 0
         | Some asset => Return asset
         end)
  end.

Definition NativeOpenNonAsset (ptr : jlong) (jcookie : jint)
  (asset_path : option string) (access_mode : jint)
  : list EngineCall * Outcome jlong :=
  let cookie := JavaCookieToApkAssetsCookie jcookie in
  match asset_path with
  | None => ([], Throw NullPointerException 0)
  | Some asset_path_utf8 =>
      if bad_access_mode access_mode
      then ([], Throw (IllegalArgumentException "Bad access mode") 0)
      else
        let assetmanager := AssetManagerFromLong ptr in
        let cookie_arg :=
          if decide (cookie <> kInvalidCookie) then Some cookie else None in
        ([CallOpenNonAsset asset_path_utf8 cookie_arg access_mode],
         match OpenNonAsset assetmanager asset_path_utf8 cookie_arg access_mode with
         | None => Throw (FileNotFoundException asset_path_utf8) 0
         | Some asset => Return asset
         end)
  end.

Definition NativeGetResourceValue (ptr : jlong) (resid : jint) (density : jint)
  (typed_value : jobject) (resolve_references : jboolean)
  : Outcome (jint * jobject) :=
  let assetmanager := AssetManagerFromLong ptr in
  match GetResource assetmanager (to_uint32 resid) false (to_uint16 density) with
  | None => Return (ApkAssetsCookieToJavaCookie kInvalidCookie, typed_value)
  | Some value =>
      if resolve_references then
        match ResolveReference assetmanager value with
        | None => Return (ApkAssetsCookieToJavaCookie kInvalidCookie, typed_value)
        | Some value' => Return (CopyValue value' typed_value)
        end
      else Return (CopyValue value typed_value)
  end.

(** [std::find_if] over the reverse iterators of the bag. *)
Definition find_last_entry (bag_entry_id : jint) (bag : ResolvedBag)
  : option Entry :=
  List.find (fun e => bool_decide (key e = to_uint32 bag_entry_id))
            (rev (entries bag)).

Definition NativeGetResourceBagValue (ptr : jlong) (resid bag_entry_id : jint)
  (typed_value : jobject) : Outcome (jint * jobject) :=
  let assetmanager := AssetManagerFromLong ptr in
  match GetBag assetmanager (to_uint32 resid) with
  | None => Return (ApkAssetsCookieToJavaCookie kInvalidCookie, typed_value)
  | Some bag =>
      match find_last_entry bag_entry_id bag with
      | None => Return (ApkAssetsCookieToJavaCookie kInvalidCookie, typed_value)
      | Some entry =>
          match ResolveReference assetmanager (SelectedValue_of_entry bag entry) with
          | None =>
              Return (ApkAssetsCookieToJavaCookie kInvalidCookie, typed_value)
          | Some attr_value => Return (CopyValue attr_value typed_value)
          end
      end
  end.

(** The slots [NativeGetResourceArray] writes lie inside one stride and the
    type and data slots are not shared with a slot written after them. *)
Definition style_layout_ok : Prop :=
  (0 <= STYLE_TYPE < STYLE_NUM_ENTRIES)
  /\ (0 <= STYLE_DATA < STYLE_NUM_ENTRIES)
  /\ 0 <= STYLE_ASSET_COOKIE /\ 0 <= STYLE_RESOURCE_ID
  /\ 0 <= STYLE_CHANGING_CONFIGURATIONS /\ 0 <= STYLE_DENSITY
  /\ STYLE_TYPE <> STYLE_DATA
  /\ (STYLE_TYPE <> STYLE_ASSET_COOKIE /\ STYLE_DATA <> STYLE_ASSET_COOKIE)
  /\ (STYLE_TYPE <> STYLE_RESOURCE_ID /\ STYLE_DATA <> STYLE_RESOURCE_ID)
  /\ (STYLE_TYPE <> STYLE_CHANGING_CONFIGURATIONS
      /\ STYLE_DATA <> STYLE_CHANGING_CONFIGURATIONS)
  /\ (STYLE_TYPE <> STYLE_DENSITY /\ STYLE_DATA <> STYLE_DENSITY).

(** The [@null] rule of [NativeGetResourceArray]. *)
Definition null_normalize (attr_value : SelectedValue) : SelectedValue :=
  if bool_decide (type attr_value = TYPE_REFERENCE) && bool_decide (data attr_value = 0)
  then {| cookie := cookie attr_value; data := DATA_NULL_UNDEFINED;
          type := TYPE_NULL; flags := flags attr_value;
          resid := resid attr_value; config := config attr_value |}
  else attr_value.

(** The six stores of one loop iteration, in source order. *)
Definition write_entry (cursor : Z) (attr_value : SelectedValue)
  (buffer : list jint) : option (list jint) :=
  b ← store buffer (cursor + STYLE_TYPE) (to_jint (type attr_value));
  b ← store b (cursor + STYLE_DATA) (to_jint (data attr_value));
  b ← store b (cursor + STYLE_ASSET_COOKIE)
        (ApkAssetsCookieToJavaCookie (cookie attr_value));
  b ← store b (cursor + STYLE_RESOURCE_ID) (to_jint (resid attr_value));
  b ← store b (cursor + STYLE_CHANGING_CONFIGURATIONS)
        (to_jint (flags attr_value));
  store b (cursor + STYLE_DENSITY) (to_jint (density (config attr_value))).

(** The loop of [NativeGetResourceArray] from entry [es] on, the cursor
    [cursor] ints into the buffer. *)
Fixpoint write_entries (assetmanager : AssetManager2) (bag : ResolvedBag)
  (es : list Entry) (cursor : Z) (buffer : list jint) : WriteResult :=
  match es with
  | [] => Written buffer
  | e :: rest =>
      match ResolveReference assetmanager (SelectedValue_of_entry bag e) with
      | None => ResolveFailed buffer
      | Some attr_value =>
          match write_entry cursor (null_normalize attr_value) buffer with
          | None => Overrun
          | Some buffer' =>
              write_entries assetmanager bag rest (cursor + STYLE_NUM_ENTRIES) buffer'
          end
      end
  end.

(** [out_data] is an array (not null), so that [GetArrayLength] raises
    nothing; the result carries the contents of the array after the call. *)
Definition NativeGetResourceArray (env : JNIEnv) (ptr : jlong) (resid : jint)
  (out_data : list jint) : Outcome (jint * list jint) :=
  let assetmanager := AssetManagerFromLong ptr in
  match GetBag assetmanager (to_uint32 resid) with
  | None => Return (-1, out_data)
  | Some bag =>
      let out_data_length := Z.of_nat (length out_data) in
      if decide (to_jint (entry_count bag)
                 > to_jint (out_data_length * STYLE_NUM_ENTRIES))
      then Throw (IllegalArgumentException "Input array is not large enough")
                 (-1, out_data)
      else if negb (critical env 0) then Return (-1, out_data)
      else
        match write_entries assetmanager bag (entries bag) 0 out_data with
        | Overrun => Fault
        | ResolveFailed buffer =>
            Return (-1, ReleasePrimitiveArrayCritical env out_data buffer JNI_ABORT)
        | Written buffer =>
            Return (to_jint (entry_count bag),
                    ReleasePrimitiveArrayCritical env out_data buffer Commit)
        end
  end.

End Resources.

(* ===================================================================== *)
(** * Theme *)
(* ===================================================================== *)

(** Modelled from the spec: the engine's [Theme] class (its state and the
    methods [ApplyStyle], [Rebase], [SetTo], [GetAttribute]) is not in this
    translation unit; sections 3 and 4.5 of the specification describe it.
    A theme is attached to one context, holds the flattened attribute
    table, the log of applied styles and the union of the changing
    configurations of what was merged. *)
Record Theme := {
  asset_manager_ : jlong;               (* [GetAssetManager()] *)
  entries_ : gmap Z SelectedValue;
  rebase_log : list (Z * bool);
  type_spec_flags_ : Z
}.

(** [AssetManager2::NewTheme] *)
Definition NewTheme (assetmanager : jlong) : Theme :=
  {| asset_manager_ := assetmanager; entries_ := ∅; rebase_log := [];
     type_spec_flags_ := 0 |}.

Section ThemeEngine.
Context `{Engine}.

(** Modelled from the spec: "for each entry, if the attribute key is not yet
    present in the flattened table, or force is set, writes/overwrites it". *)
Definition apply_entry (bag : ResolvedBag) (force : bool)
  (table : gmap Z SelectedValue) (e : Entry) : gmap Z SelectedValue :=
  if force || bool_decide (table !! key e = None)
  then <[key e := SelectedValue_of_entry bag e]> table
  else table.

(** Modelled from the spec: [Theme::ApplyStyle] "resolves resid's bag; for
    each entry [...] writes/overwrites it; appends (resid, force) to the
    rebase log". The boolean is the success of the bag lookup; an absent bag
    contributes no entry, and the style is recorded all the same. *)
Definition Theme_ApplyStyle (theme : Theme) (resid : Z) (force : bool)
  : Theme * bool :=
  match GetBag (AssetManagerFromLong (asset_manager_ theme)) resid with
  | None =>
      ({| asset_manager_ := asset_manager_ theme;
          entries_ := entries_ theme;
          rebase_log := rebase_log theme ++ [(resid, force)];
          type_spec_flags_ := type_spec_flags_ theme |}, false)
  | Some bag =>
      ({| asset_manager_ := asset_manager_ theme;
          entries_ := foldl (apply_entry bag force) (entries_ theme) (entries bag);
          rebase_log := rebase_log theme ++ [(resid, force)];
          type_spec_flags_ := Z.lor (type_spec_flags_ theme) (type_spec_flags bag) |},
       true)
  end.

(** Applying a sequence of styles in order. *)
Definition apply_styles (theme : Theme) (styles : list (Z * bool)) : Theme :=
  foldl (fun t s => (Theme_ApplyStyle t s.1 s.2).1) theme styles.

(** Modelled from the spec: [Theme::Rebase] "clears the flattened table and
    rebase log, then replays ApplyStyle for each (styleIds[i], force[i])
    against newContext". *)
Definition Theme_Rebase (theme : Theme) (assetmanager : jlong)
  (style_ids : list Z) (force : list bool) (style_count : nat) : Theme :=
  let cleared :=
    {| asset_manager_ := assetmanager; entries_ := ∅; rebase_log := [];
       type_spec_flags_ := 0 |} in
  apply_styles cleared (zip (take style_count style_ids) (take style_count force)).

(** Modelled from the spec: [Theme::SetTo], "wholesale copy of flattened
    table and rebase log from another Theme [...] each Theme's own
    Resolution Context association is preserved". *)
Definition Theme_SetTo (theme other : Theme) : Theme :=
  {| asset_manager_ := asset_manager_ theme;
     entries_ := entries_ other;
     rebase_log := rebase_log other;
     type_spec_flags_ := type_spec_flags_ other |}.

(** Modelled from the spec: [Theme::GetAttribute], "direct lookup in the
    flattened table". *)
Definition Theme_GetAttribute (theme : Theme) (resid : Z) : option SelectedValue :=
  entries_ theme !! resid.

End ThemeEngine.

(** The free functions of [AttributeResolution.h]; each returns what it
    left in the output buffers, [ResolveAttrs] also whether it succeeded. *)
Class AttributeResolution := {
  ApplyStyle : Theme -> jlong -> Z -> Z -> list Z -> AttrOutput -> AttrOutput;
  ResolveAttrs : Theme -> Z -> Z -> option (list Z) -> list Z -> AttrOutput
                 -> bool * AttrOutput
}.

(* ===================================================================== *)
(** * Native methods: styles and themes *)
(* ===================================================================== *)

Section Themes.
Context `{AndroidFw} `{Engine} `{AttributeResolution}.

Definition owns (theme : Theme) (ptr : jlong) : bool :=
  bool_decide (asset_manager_ theme = ptr).

Definition NativeAttributeResolutionStack (env : JNIEnv) (ptr : jlong)
  (theme : Theme) (xml_style_res def_style_attr def_style_resid : jint)
  : Outcome (option (list jint)) :=
  let assetmanager := AssetManagerFromLong ptr in
  CHECK (owns theme ptr) (
    let def_style_resid :=
      if decide (def_style_attr <> 0) then
        match Theme_GetAttribute theme (to_uint32 def_style_attr) with
        | Some value =>
            if decide (type value = TYPE_REFERENCE)
            then to_jint (data value) else def_style_resid
        | None => def_style_resid
        end
      else def_style_resid in
    match GetBagResIdStack assetmanager (to_uint32 xml_style_res) with
    | None => Throw IOException None
    | Some style_stack =>
        match GetBagResIdStack assetmanager (to_uint32 def_style_resid) with
        | None => Throw IOException None
        | Some def_style_stack =>
            if new_array env
            then Return (Some (map to_jint (style_stack ++ def_style_stack)))
            else Throw OutOfMemoryError None
        end
    end).

(** [out] is the native memory behind [out_values_ptr] and
    [out_indices_ptr]. *)
Definition NativeApplyStyle (env : JNIEnv) (ptr : jlong) (theme : Theme)
  (def_style_attr def_style_resid : jint) (xml_parser_ptr : jlong)
  (java_attrs : list jint) (out : AttrOutput) : Outcome AttrOutput :=
  CHECK (owns theme ptr) (
    if negb (critical env 0) then Return out
    else Return (ApplyStyle theme xml_parser_ptr (to_uint32 def_style_attr)
                   (to_uint32 def_style_resid) (map to_uint32 java_attrs) out)).

(** A scoped critical array that could not be pinned hands the engine a
    null buffer. *)
Definition NativeApplyStyleWithArray (env : JNIEnv) (ptr : jlong) (theme : Theme)
  (def_style_attr def_style_resid : jint) (xml_parser_ptr : jlong)
  (java_attrs java_values java_indices : list jint) : Outcome AttrOutput :=
  CHECK (owns theme ptr) (
    if critical env 0 && critical env 1 && critical env 2
    then Return (ApplyStyle theme xml_parser_ptr (to_uint32 def_style_attr)
                   (to_uint32 def_style_resid) (map to_uint32 java_attrs)
                   {| out_values := java_values;
                      out_indices := Some java_indices |})
    else Fault).

Definition NativeResolveAttrs (env : JNIEnv) (ptr : jlong) (theme : Theme)
  (def_style_attr def_style_resid : jint) (java_values : option (list jint))
  (java_attrs out_java_values : list jint)
  (out_java_indices : option (list jint)) : Outcome (jboolean * AttrOutput) :=
  let untouched :=
    {| out_values := out_java_values; out_indices := out_java_indices |} in
  let attrs_len := Z.of_nat (length java_attrs) in
  let out_values_len := Z.of_nat (length out_java_values) in
  if decide (out_values_len < to_jint (attrs_len * STYLE_NUM_ENTRIES))
  then Throw (IndexOutOfBoundsException "outValues too small") (false, untouched)
  else if negb (critical env 0) then Return (false, untouched)
  else if bool_decide (is_Some java_values) && negb (critical env 1)
  then Return (false, untouched)
  else if negb (critical env 2) then Return (false, untouched)
  else
    let pin_indices :=
      match out_java_indices with
      | Some indices => bool_decide (Z.of_nat (length indices) > attrs_len)
      | None => false
      end in
    if pin_indices && negb (critical env 3) then Return (false, untouched)
    else
      CHECK (owns theme ptr) (
        let result :=
          ResolveAttrs theme (to_uint32 def_style_attr)
            (to_uint32 def_style_resid) (map to_uint32 <$> java_values)
            (map to_uint32 java_attrs)
            {| out_values := out_java_values;
               out_indices := if pin_indices then out_java_indices else None |} in
        Return (result.1,
                {| out_values := out_values result.2;
                   out_indices := if pin_indices then out_indices result.2
                                  else out_java_indices |})).

Definition NativeThemeCreate (ptr : jlong) : Theme := NewTheme ptr.

Definition NativeThemeApplyStyle (ptr : jlong) (theme : Theme) (resid : jint)
  (force : jboolean) : Outcome Theme :=
  CHECK (owns theme ptr)
    (Return (Theme_ApplyStyle theme (to_uint32 resid) force).1).

(** [std::vector{p, p + style_count}] with a negative count is not a range:
    the constructor refuses the length and the process aborts, before any
    element is read. *)
Definition NativeThemeRebase (env : JNIEnv) (ptr : jlong) (theme : Theme)
  (style_ids : option (list jint)) (force : option (list jboolean))
  (style_count : jint) : Outcome Theme :=
  CHECK (match style_ids with
         | Some ids => bool_decide (style_count <= Z.of_nat (length ids))
         | None => bool_decide (style_count = 0)
         end) (
    if bool_decide (is_Some style_ids) && negb (critical env 0) then Return theme
    else if decide (style_count < 0) then Abort
    else
      let style_id_args_copy :=
        take (Z.to_nat style_count) (map to_uint32 (default [] style_ids)) in
      CHECK (match force with
             | Some f => bool_decide (style_count <= Z.of_nat (length f))
             | None => bool_decide (style_count = 0)
             end) (
        if bool_decide (is_Some force) && negb (critical env 1) then Return theme
        else
          let force_args_copy := take (Z.to_nat style_count) (default [] force) in
          Return (Theme_Rebase theme ptr style_id_args_copy force_args_copy
                    (Z.to_nat style_count)))).

(** Returns the destination theme after the copy. *)
Definition NativeThemeCopy (dst_asset_manager_ptr : jlong) (dst_theme : Theme)
  (src_asset_manager_ptr : jlong) (src_theme : Theme) : Outcome Theme :=
  CHECK (owns src_theme src_asset_manager_ptr) (
    if decide (dst_asset_manager_ptr <> src_asset_manager_ptr)
    then CHECK (owns dst_theme dst_asset_manager_ptr)
           (Return (Theme_SetTo dst_theme src_theme))
    else Return (Theme_SetTo dst_theme src_theme)).

Definition NativeThemeGetAttributeValue (ptr : jlong) (theme : Theme)
  (resid : jint) (typed_value : jobject) (resolve_references : jboolean)
  : Outcome (jint * jobject) :=
  CHECK (owns theme ptr) (
    match Theme_GetAttribute theme (to_uint32 resid) with
    | None => Return (ApkAssetsCookieToJavaCookie kInvalidCookie, typed_value)
    | Some value =>
        if negb resolve_references then Return (CopyValue value typed_value)
        else
          match ResolveReference (AssetManagerFromLong (asset_manager_ theme)) value with
          | None => Return (ApkAssetsCookieToJavaCookie kInvalidCookie, typed_value)
          | Some value' => Return (CopyValue value' typed_value)
          end
    end).

(** [Theme::Dump] only writes to the log. *)
Definition NativeThemeDump (ptr : jlong) (theme : Theme) : Outcome unit :=
  CHECK (owns theme ptr) (Return tt).

(** The arguments of [NativeThemeApplyStyle] as the engine receives them. *)
Definition as_engine_style (s : Z * bool) : Z * bool := (to_uint32 s.1, s.2).

(** A sequence of [NativeThemeApplyStyle] calls on one theme. *)
Fixpoint apply_styles_native (ptr : jlong) (theme : Theme)
  (styles : list (jint * jboolean)) : Outcome Theme :=
  match styles with
  | [] => Return theme
  | (resid, force) :: rest =>
      match NativeThemeApplyStyle ptr theme resid force with
      | Return theme' => apply_styles_native ptr theme' rest
      | other => other
      end
  end.

End Themes.

(* ===================================================================== *)
(** * Native methods: bag accessors, asset streams, source lists *)
(* ===================================================================== *)

(** The type tags of [Res_value] that the array accessors test. *)
Class ResValueTypes := {
  TYPE_STRING : Z;
  TYPE_FIRST_INT : Z;
  TYPE_LAST_INT : Z
}.

(** [Asset::read(buf, count)] on the asset behind a handle: given the
    [count] bytes at [buf], the [ssize_t] it returns and the bytes it leaves
    there. *)
Class AssetStream := {
  Asset_read : jlong -> list Z -> Z * list Z
}.

(** [RetrieveAttributes] of [AttributeResolution.h]: whether it succeeded
    and what it left in the output buffers. *)
Class AttributeRetrieval `{Engine} := {
  RetrieveAttributes : AssetManager2 -> jlong -> list Z -> AttrOutput
                       -> bool * AttrOutput
}.

(** What a native method that builds an int array returns. *)
Inductive ArrayOutcome :=
| ArrayReturned (array : list jint)  (* the array, nothing pending *)
| NullReturned                       (* nullptr, nothing pending *)
| NullAllocation                     (* nullptr, [NewIntArray] has raised *)
| ArrayOverrun.                      (* a store outside the new array *)

(** [NewIntArray(len)]: a zeroed array, unless the VM refuses or the length
    is negative. *)
Definition NewIntArray (env : JNIEnv) (len : jsize) : option (list jint) :=
  if new_array env && bool_decide (0 <= len)
  then Some (replicate (Z.to_nat len) 0)
  else None.

(** What [NativeSetApkAssets] does with its array: the exception it raises
    at the first element it refuses, or its call of the engine. *)
Inductive SetApkAssetsOutcome :=
| ApkAssetsNull (i : nat)         (* NullPointerException, "index i is null" *)
| ApkAssetsClosed (i : nat)       (* IllegalArgumentException, "index i is closed" *)
| CalledPresetApkAssets (apk_assets : list jlong)
| CalledSetApkAssets (apk_assets : list jlong) (invalidate_caches : bool).

(** The loop of [NativeSetApkAssets] from index [i] on: an element is a null
    object ([None]) or an [ApkAssets] with its [mNativePtr]. *)
Fixpoint collect_apk_assets (i : nat) (apk_assets_array : list (option jlong))
  (apk_assets : list jlong) : SetApkAssetsOutcome + list jlong :=
  match apk_assets_array with
  | [] => inr apk_assets
  | None :: _ => inl (ApkAssetsNull i)
  | Some apk_assets_native_ptr :: rest =>
      if decide (apk_assets_native_ptr = 0) then inl (ApkAssetsClosed i)
      else collect_apk_assets (S i) rest (apk_assets ++ [apk_assets_native_ptr])
  end.

(** [GetLongField] on an [ApkAssets] object raises nothing; the engine
    receives the assets behind the native pointers, in array order. *)
Definition NativeSetApkAssets (apk_assets_array : list (option jlong))
  (invalidate_caches preset : jboolean) : SetApkAssetsOutcome :=
  match collect_apk_assets 0 apk_assets_array [] with
  | inl refused => refused
  | inr apk_assets =>
      if preset then CalledPresetApkAssets apk_assets
      else CalledSetApkAssets apk_assets invalidate_caches
  end.

Section BagAccessors.
Context `{AndroidFw} `{ResValueTypes} `{Engine}.

Definition NativeGetResourceArraySize (ptr : jlong) (resid : jint) : jint :=
  match GetBag (AssetManagerFromLong ptr) (to_uint32 resid) with
  | None => -1
  | Some bag => to_jint (entry_count bag)
  end.

(** The loop of [NativeGetStyleAttributes]: [SetIntArrayRegion(array, i, 1,
    &attr_resid)] for each entry. *)
Fixpoint write_keys (es : list Entry) (i : Z) (array : list jint)
  : option (list jint) :=
  match es with
  | [] => Some array
  | e :: rest =>
      match store array i (to_jint (key e)) with
      | Some array' => write_keys rest (i + 1) array'
      | None => None
      end
  end.

Definition NativeGetStyleAttributes (env : JNIEnv) (ptr : jlong) (resid : jint)
  : ArrayOutcome :=
  match GetBag (AssetManagerFromLong ptr) (to_uint32 resid) with
  | None => NullReturned
  | Some bag =>
      match NewIntArray env (to_jint (entry_count bag)) with
      | None => NullAllocation
      | Some array =>
          match write_keys (entries bag) 0 array with
          | Some array' => ArrayReturned array'
          | None => ArrayOverrun
          end
      end
  end.

(** The test [NativeGetResourceIntArray] makes of a resolved type. *)
Definition is_int_type (attr_value : SelectedValue) : bool :=
  bool_decide (type attr_value >= TYPE_FIRST_INT)
  && bool_decide (type attr_value <= TYPE_LAST_INT).

(** The loop of [NativeGetResourceIntArray]: entry [i] goes to [buffer[i]]
    when its resolved type is an int type. *)
Fixpoint write_ints (assetmanager : AssetManager2) (bag : ResolvedBag)
  (es : list Entry) (i : Z) (buffer : list jint) : WriteResult :=
  match es with
  | [] => Written buffer
  | e :: rest =>
      match ResolveReference assetmanager (SelectedValue_of_entry bag e) with
      | None => ResolveFailed buffer
      | Some attr_value =>
          if is_int_type attr_value
          then
            match store buffer i (to_jint (data attr_value)) with
            | Some buffer' => write_ints assetmanager bag rest (i + 1) buffer'
            | None => Overrun
            end
          else write_ints assetmanager bag rest (i + 1) buffer
      end
  end.

Definition NativeGetResourceIntArray (env : JNIEnv) (ptr : jlong) (resid : jint)
  : ArrayOutcome :=
  let assetmanager := AssetManagerFromLong ptr in
  match GetBag assetmanager (to_uint32 resid) with
  | None => NullReturned
  | Some bag =>
      match NewIntArray env (to_jint (entry_count bag)) with
      | None => NullAllocation
      | Some array =>
          if negb (critical env 0) then NullReturned
          else
            match write_ints assetmanager bag (entries bag) 0 array with
            | Written buffer => ArrayReturned buffer
            | ResolveFailed _ => NullReturned
            | Overrun => ArrayOverrun
            end
      end
  end.

(** The loop of [NativeGetResourceStringArrayInfo]: the Java cookie of entry
    [i] at [buffer[i * 2]], its string index (or -1) after it. *)
Fixpoint write_string_info (assetmanager : AssetManager2) (bag : ResolvedBag)
  (es : list Entry) (i : Z) (buffer : list jint) : WriteResult :=
  match es with
  | [] => Written buffer
  | e :: rest =>
      match ResolveReference assetmanager (SelectedValue_of_entry bag e) with
      | None => ResolveFailed buffer
      | Some attr_value =>
          let string_index :=
            if decide (type attr_value = TYPE_STRING)
            then to_jint (data attr_value) else -1 in
          match store buffer (i * 2)
                  (ApkAssetsCookieToJavaCookie (cookie attr_value)) with
          | None => Overrun
          | Some b =>
              match store b (i * 2 + 1) string_index with
              | None => Overrun
              | Some buffer' =>
                  write_string_info assetmanager bag rest (i + 1) buffer'
              end
          end
      end
  end.

(** [bag->entry_count * 2] is a 32-bit unsigned product. *)
Definition NativeGetResourceStringArrayInfo (env : JNIEnv) (ptr : jlong)
  (resid : jint) : ArrayOutcome :=
  let assetmanager := AssetManagerFromLong ptr in
  match GetBag assetmanager (to_uint32 resid) with
  | None => NullReturned
  | Some bag =>
      match NewIntArray env (to_jint (to_uint32 (entry_count bag * 2))) with
      | None => NullAllocation
      | Some array =>
          if negb (critical env 0) then NullReturned
          else
            match write_string_info assetmanager bag (entries bag) 0 array with
            | Written buffer => ArrayReturned buffer
            | ResolveFailed _ => NullReturned
            | Overrun => ArrayOverrun
            end
      end
  end.

(** All six slots of [NativeGetResourceArray] lie inside one stride, each at
    its own offset. *)
Definition style_layout_dense : Prop :=
  (0 <= STYLE_TYPE < STYLE_NUM_ENTRIES)
  /\ (0 <= STYLE_DATA < STYLE_NUM_ENTRIES)
  /\ (0 <= STYLE_ASSET_COOKIE < STYLE_NUM_ENTRIES)
  /\ (0 <= STYLE_RESOURCE_ID < STYLE_NUM_ENTRIES)
  /\ (0 <= STYLE_CHANGING_CONFIGURATIONS < STYLE_NUM_ENTRIES)
  /\ (0 <= STYLE_DENSITY < STYLE_NUM_ENTRIES)
  /\ NoDup [STYLE_TYPE; STYLE_DATA; STYLE_ASSET_COOKIE; STYLE_RESOURCE_ID;
            STYLE_CHANGING_CONFIGURATIONS; STYLE_DENSITY].

(** The stride of one entry in the output of [NativeGetResourceArray]
    holds the fields of [attr_value]. *)
Definition stride_holds (out : list jint) (cursor : Z) (attr_value : SelectedValue)
  : Prop :=
  out !! Z.to_nat (cursor + STYLE_TYPE) = Some (to_jint (type attr_value))
  /\ out !! Z.to_nat (cursor + STYLE_DATA) = Some (to_jint (data attr_value))
  /\ out !! Z.to_nat (cursor + STYLE_ASSET_COOKIE)
     = Some (ApkAssetsCookieToJavaCookie (cookie attr_value))
  /\ out !! Z.to_nat (cursor + STYLE_RESOURCE_ID)
     = Some (to_jint (resid attr_value))
  /\ out !! Z.to_nat (cursor + STYLE_CHANGING_CONFIGURATIONS)
     = Some (to_jint (flags attr_value))
  /\ out !! Z.to_nat (cursor + STYLE_DENSITY)
     = Some (to_jint (density (config attr_value))).

End BagAccessors.

Section AssetStreams.
Context `{AssetStream}.

(** [asset->read(&b, sizeof(b))] with [b] a [uint8_t]. *)
Definition NativeAssetReadChar (asset_ptr : jlong) : jint :=
  let '(res, bytes) := Asset_read asset_ptr [0] in
  if decide (res = 1) then to_jint (to_uint8 (List.nth 0 bytes 0)) else -1.

(** The result carries the contents of [java_buffer] after the call. The
    scoped byte array is the only pin of the method; its release commits
    what the asset wrote. *)
Definition NativeAssetRead (env : JNIEnv) (asset_ptr : jlong)
  (java_buffer : list Z) (offset len : jint) : Outcome (jint * list Z) :=
  if decide (len = 0) then Return (0, java_buffer)
  else
    let buffer_len := Z.of_nat (length java_buffer) in
    if bool_decide (offset < 0) || bool_decide (offset >= buffer_len)
       || bool_decide (len < 0) || bool_decide (len > buffer_len)
       || bool_decide (offset > to_jint (buffer_len - len))
    then Throw (IndexOutOfBoundsException "") (-1, java_buffer)
    else if negb (critical env 0) then Return (-1, java_buffer)
    else
      let before := take (Z.to_nat offset) java_buffer in
      let window := take (Z.to_nat len) (drop (Z.to_nat offset) java_buffer) in
      let after := drop (Z.to_nat offset + Z.to_nat len) java_buffer in
      let '(res, window') := Asset_read asset_ptr window in
      let java_buffer' := before ++ window' ++ after in
      if decide (res < 0) then Throw IOException (-1, java_buffer')
      else Return (if decide (res > 0) then to_jint res else -1, java_buffer').

End AssetStreams.

Section Retrieval.
Context `{AndroidFw} `{Engine} `{!AttributeRetrieval}.

Definition NativeRetrieveAttributes (env : JNIEnv) (ptr xml_parser_ptr : jlong)
  (java_attrs out_java_values : list jint)
  (out_java_indices : option (list jint)) : Outcome (jboolean * AttrOutput) :=
  let untouched :=
    {| out_values := out_java_values; out_indices := out_java_indices |} in
  let attrs_len := Z.of_nat (length java_attrs) in
  let out_values_len := Z.of_nat (length out_java_values) in
  if decide (out_values_len < to_jint (attrs_len * STYLE_NUM_ENTRIES))
  then Throw (IndexOutOfBoundsException "outValues too small") (false, untouched)
  else if negb (critical env 0) then Return (false, untouched)
  else if negb (critical env 1) then Return (false, untouched)
  else
    let pin_indices :=
      match out_java_indices with
      | Some indices => bool_decide (Z.of_nat (length indices) > attrs_len)
      | None => false
      end in
    if pin_indices && negb (critical env 2) then Return (false, untouched)
    else
      let result :=
        RetrieveAttributes (AssetManagerFromLong ptr) xml_parser_ptr
          (map to_uint32 java_attrs)
          {| out_values := out_java_values;
             out_indices := if pin_indices then out_java_indices else None |} in
      Return (result.1,
              {| out_values := out_values result.2;
                 out_indices := if pin_indices then out_indices result.2
                                else out_java_indices |}).

End Retrieval.

(** The outcome [o] with [indices] in place of the indices it carries. *)
Definition returning_indices (indices : option (list jint))
  (o : Outcome (jboolean * AttrOutput)) : Outcome (jboolean * AttrOutput) :=
  let put (r : jboolean * AttrOutput) :=
    (r.1, {| out_values := out_values r.2; out_indices := indices |}) in
  match o with
  | Return r => Return (put r)
  | Throw e r => Throw e (put r)
  | Abort => Abort
  | Fault => Fault
  end.

(* ===================================================================== *)
(** * Concrete headers and a table-driven engine *)
(* ===================================================================== *)

(** The values the platform headers give the enumerators. *)
Definition platform_headers : AndroidFw :=
  {| kInvalidCookie := -1;
     STYLE_NUM_ENTRIES := 7;
     STYLE_TYPE := 0;
     STYLE_DATA := 1;
     STYLE_ASSET_COOKIE := 2;
     STYLE_RESOURCE_ID := 3;
     STYLE_CHANGING_CONFIGURATIONS := 4;
     STYLE_DENSITY := 5;
     TYPE_NULL := 0;
     TYPE_REFERENCE := 1;
     DATA_NULL_UNDEFINED := 0;
     ACCESS_UNKNOWN := 0;
     ACCESS_RANDOM := 1;
     ACCESS_STREAMING := 2;
     ACCESS_BUFFER := 3 |}.

(** Modelled from the spec: the resolution engine is not in this
    translation unit. A context is reduced to the value each resource id
    selects and the merged bag of each style or array id (sections 4.3 and
    4.4 of the specification). *)
Record Tables := {
  values : gmap Z SelectedValue;
  bags : gmap Z ResolvedBag
}.

(** Modelled from the spec: the "maximum indirection depth (bounded, e.g.
    20)" of [ResolveReference]. *)
Definition kMaxIterations : nat := 20.

(** Modelled from the spec: [ResolveReference] "repeats GetValue on the
    referenced id [...] until a non-reference [...] terminal type is reached
    or a maximum indirection depth [...] is exceeded, which is a failure".
    The reference to id 0 is the [@null] value of section 4.4 and is left as
    it is. *)
Fixpoint resolve_chain `{AndroidFw} (values : gmap Z SelectedValue)
  (fuel : nat) (value : SelectedValue) : option SelectedValue :=
  if bool_decide (type value = TYPE_REFERENCE) && negb (bool_decide (data value = 0))
  then
    match fuel with
    | O => None
    | S fuel' =>
        match values !! data value with
        | Some next => resolve_chain values fuel' next
        | None => None
        end
    end
  else Some value.

(** Modelled from the spec: an engine over [Tables]; [heap] is the context
    behind each native handle. It holds no files. *)
Definition table_engine `{AndroidFw} (heap : jlong -> Tables) : Engine :=
  {| AssetManager2 := Tables;
     AssetManagerFromLong := heap;
     GetResource := fun am resid _ _ => values am !! resid;
     ResolveReference := fun am value => resolve_chain (values am) kMaxIterations value;
     GetBag := fun am resid => bags am !! resid;
     SelectedValue_of_entry := fun bag e =>
       {| cookie := entry_cookie e; data := entry_data e; type := entry_type e;
          flags := type_spec_flags bag; resid := 0;
          config := ResTable_config_zero |};
     GetBagResIdStack := fun _ resid => Some [resid];
     Open := fun _ _ _ => None;
     OpenNonAsset := fun _ _ _ _ => None;
     packBcp47Locale := fun _ => 0 |}.

(** An attribute application that leaves the output buffers as they are. *)
Definition idle_resolution : AttributeResolution :=
  {| ApplyStyle := fun _ _ _ _ _ out => out;
     ResolveAttrs := fun _ _ _ _ _ out => (true, out) |}.

Definition plain_env : JNIEnv :=
  {| critical := fun _ => true; is_copy := false; new_array := true |}.

Definition value_of (ty dat : Z) : SelectedValue :=
  {| cookie := 0; data := dat; type := ty; flags := 0; resid := 0;
     config := ResTable_config_zero |}.

Definition entry_of (k ty dat : Z) : Entry :=
  {| key := k; entry_type := ty; entry_data := dat; entry_cookie := 0 |}.

(** Two contexts for the examples (type 16 is a decimal int, type 1 a
    reference under [platform_headers]). In the first, resource 100 refers
    to itself; bag 200 has two entries of key 1 and, between them, the
    [@null] value under key 2; the only entry of bag 201 refers to resource
    100. Both contexts define style 202, with different values. *)
Definition bag_200 : ResolvedBag :=
  {| type_spec_flags := 0;
     entries := [entry_of 1 16 10; entry_of 2 1 0; entry_of 1 16 11] |}.
Definition bag_201 : ResolvedBag :=
  {| type_spec_flags := 0; entries := [entry_of 5 1 100] |}.
Definition bag_202 : ResolvedBag :=
  {| type_spec_flags := 0; entries := [entry_of 7 16 1] |}.

Definition first_context : Tables :=
  {| values := {[ 100 := value_of 1 100; 101 := value_of 16 42 ]};
     bags := {[ 200 := bag_200; 201 := bag_201; 202 := bag_202 ]} |}.

Definition second_context : Tables :=
  {| values := ∅;
     bags := {[ 202 := {| type_spec_flags := 0; entries := [entry_of 7 16 2] |} ]} |}.

(** Handle 1 is the first context, every other handle the second. *)
Definition demo_heap (ptr : Z) : Tables :=
  if decide (ptr = 1) then first_context else second_context.

Definition demo_engine : Engine := @table_engine platform_headers demo_heap.

(** The int and string tags of the platform's [Res_value]. *)
Definition platform_types : ResValueTypes :=
  {| TYPE_STRING := 3; TYPE_FIRST_INT := 16; TYPE_LAST_INT := 31 |}.

(** An asset stream for the examples: asset 1 fills the window it is given
    with the byte 65, every other asset is at its end. *)
Definition demo_stream : AssetStream :=
  {| Asset_read := fun asset_ptr window =>
       if decide (asset_ptr = 1)
       then (Z.of_nat (length window), map (fun _ => 65) window)
       else (0, window) |}.

(** An attribute retrieval that leaves the output buffers as they are. *)
Definition idle_retrieval : @AttributeRetrieval demo_engine :=
  {| RetrieveAttributes := fun _ _ _ out => (true, out) |}.

(** What a lookup leaves in the caller's [TypedValue] [typed_value] and
    returns: nothing and -1, or a value whose [assetCookie] is the cookie
    returned, with the string reset and the fields that are not of the
    seven as they were. *)
Definition typed_value_result (typed_value : gmap string jvalue)
  (r : Z * gmap string jvalue) : Prop :=
  (r.1 = -1 /\ r.2 = typed_value)
  \/ (r.2 !! "assetCookie" = Some (JInt r.1)
      /\ r.2 !! "string" = Some (JRef None)
      /\ (exists t d i c n, r.2 !! "type" = Some (JInt t)
            /\ r.2 !! "data" = Some (JInt d)
            /\ r.2 !! "resourceId" = Some (JInt i)
            /\ r.2 !! "changingConfigurations" = Some (JInt c)
            /\ r.2 !! "density" = Some (JInt n))
      /\ (forall f : string,
            f ∉ ["type"; "assetCookie"; "data"; "string"; "resourceId";
                 "changingConfigurations"; "density"] ->
            r.2 !! f = typed_value !! f)).

(* ===================================================================== *)
(** * Properties *)
(* ===================================================================== *)

Lemma to_jint_small x : INT32_MIN <= x <= INT32_MAX -> to_jint x = x.
Proof.
  unfold to_jint, INT32_MIN, INT32_MAX. intros Hx.
  rewrite Z.mod_small; lia.
Qed.

Lemma to_jint_range x : INT32_MIN <= to_jint x <= INT32_MAX.
Proof.
  unfold to_jint, INT32_MIN, INT32_MAX.
  pose proof (Z.mod_pos_bound (x + 2 ^ 31) (2 ^ 32) ltac:(lia)). lia.
Qed.

Section CookieProperties.
Context `{AndroidFw}.

Lemma encode_valid c :
  c <> kInvalidCookie -> 0 <= c < INT32_MAX ->
  ApkAssetsCookieToJavaCookie c = c + 1.
Proof.
  intros Hc Hr. unfold ApkAssetsCookieToJavaCookie.
  destruct (decide (c <> kInvalidCookie)) as [_|Hn]; [|contradiction].
  apply to_jint_small. unfold INT32_MIN, INT32_MAX in *. lia.
Qed.

Lemma ApkAssetsCookieToJavaCookie_invalid :
  ApkAssetsCookieToJavaCookie kInvalidCookie = -1.
Proof.
  unfold ApkAssetsCookieToJavaCookie.
  destruct (decide (kInvalidCookie <> kInvalidCookie)); [contradiction|reflexivity].
Qed.


(** C10: [CopyValue] stores the type, the data, the resource id, the
    changing-configurations flags and the density of the value, the cookie
    in its Java form and a null string, leaves every other field of the
    object alone, and returns the Java cookie it stored. *)
Theorem CopyValue_contract (value : SelectedValue) (typed_value : gmap string jvalue) :
  let result := CopyValue value typed_value in
  result.2 !! "type" = Some (JInt (to_jint (type value)))
  /\ result.2 !! "data" = Some (JInt (to_jint (data value)))
  /\ result.2 !! "resourceId" = Some (JInt (to_jint (resid value)))
  /\ result.2 !! "changingConfigurations" = Some (JInt (to_jint (flags value)))
  /\ result.2 !! "density" = Some (JInt (to_jint (density (config value))))
  /\ result.2 !! "assetCookie"
     = Some (JInt (ApkAssetsCookieToJavaCookie (cookie value)))
  /\ result.2 !! "string" = Some (JRef None)
  /\ result.1 = ApkAssetsCookieToJavaCookie (cookie value)
  /\ result.2 !! "assetCookie" = Some (JInt result.1)
  /\ (forall f : string,
        f ∉ ["type"; "assetCookie"; "data"; "string"; "resourceId";
             "changingConfigurations"; "density"] ->
        result.2 !! f = typed_value !! f).
Proof.
  cbn -[to_jint ApkAssetsCookieToJavaCookie].
  unfold SetIntField, SetObjectField.
  repeat split; try (by simplify_map_eq).
  intros f Hf.
  repeat (rewrite lookup_insert_ne;
          [|intros <-; apply Hf; set_solver]).
  reflexivity.
Qed.

End CookieProperties.

(** ** The round qualifier *)

Lemma round_field_land x :
  Z.shiftr (Z.land x kScreenLayoutRoundMask) kScreenLayoutRoundShift
  = Z.land (Z.shiftr x 8) (Z.ones 2).
Proof.
  unfold kScreenLayoutRoundMask, kScreenLayoutRoundShift.
  rewrite Z.shiftr_land. reflexivity.
Qed.

Lemma round_field_small x :
  0 <= Z.shiftr (Z.land x kScreenLayoutRoundMask) kScreenLayoutRoundShift < 4.
Proof.
  rewrite round_field_land, Z.land_ones by lia.
  apply (Z.mod_pos_bound _ (2 ^ 2)). lia.
Qed.

Lemma round_field_bit x i :
  0 <= i < 2 ->
  Z.testbit (Z.shiftr (Z.land x kScreenLayoutRoundMask) kScreenLayoutRoundShift) i
  = Z.testbit x (8 + i).
Proof.
  intros Hi. rewrite round_field_land, Z.land_ones by lia.
  rewrite Z.mod_pow2_bits_low by lia.
  rewrite Z.shiftr_spec by lia. f_equal. lia.
Qed.

Section ResourceProperties.
Context `{AndroidFw} `{Engine}.

Lemma locale_configs_spec (P : ResTable_config -> Prop) configuration locales :
  (forall tag, P (setBcp47Locale tag configuration)) ->
  match locale_configs configuration locales with
  | Some cs => Forall P cs /\ length cs = length locales
  | None => None ∈ locales
  end.
Proof.
  intros HP. induction locales as [|[tag|] rest IH]; cbn.
  - split; [constructor|reflexivity].
  - destruct (locale_configs configuration rest) as [cs|].
    + destruct IH as [IH1 IH2]. split; [constructor; auto|cbn; lia].
    + by apply list_elem_of_further.
  - apply list_elem_of_here.
Qed.

(** C9: for every [screen_layout], each configuration that
    [NativeSetConfiguration] hands to the engine has the low byte of
    [screen_layout] in [screenLayout] and [(screen_layout & 0x300) >> 8] in
    [screenLayout2], so that bits 8 and 9 of the argument are bits 0 and 1
    of [screenLayout2]; at least one configuration is handed over, and the
    call only fails (a CHECK) for a null element of [locales]. *)
Theorem NativeSetConfiguration_round_qualifier
  (mcc mnc : Z) (default_locale : option string)
  (locales : option (list (option string)))
  (orientation touchscreen density keyboard keyboard_hidden navigation
   screen_width screen_height smallest_screen_width_dp screen_width_dp
   screen_height_dp screen_layout ui_mode color_mode grammatical_gender
   major_version : Z) (force_refresh : bool) :
  match NativeSetConfiguration mcc mnc default_locale locales orientation
          touchscreen density keyboard keyboard_hidden navigation screen_width
          screen_height smallest_screen_width_dp screen_width_dp
          screen_height_dp screen_layout ui_mode color_mode grammatical_gender
          major_version force_refresh with
  | Return call =>
      configs call <> [] /\ Forall (layout_split screen_layout) (configs call)
  | Abort => exists l, locales = Some l /\ None ∈ l
  | Throw _ _ | Fault => False
  end.
Proof.
  assert (Hsplit : forall c, screenLayout c = to_uint8 screen_layout ->
            screenLayout2 c
            = to_uint8 (Z.shiftr (Z.land screen_layout kScreenLayoutRoundMask)
                                 kScreenLayoutRoundShift) ->
            layout_split screen_layout c).
  { intros c H1 H2. unfold layout_split. rewrite H1, H2.
    pose proof (round_field_small screen_layout) as Hs.
    unfold to_uint8 at 2 3 4. rewrite (Z.mod_small _ (2 ^ 8)) by lia.
    split; [|split; [|split]].
    - unfold to_uint8. by rewrite <- (Z.land_ones _ 8) by lia.
    - reflexivity.
    - by rewrite round_field_bit by lia.
    - by rewrite round_field_bit by lia. }
  unfold NativeSetConfiguration.
  set (configuration := Build_ResTable_config _ _ _ _ _ _ _ _ _ _ _ _ _ _ _ _ _ _ _ _ _).
  assert (Hc : layout_split screen_layout configuration) by (by apply Hsplit).
  assert (Hl : forall tag, layout_split screen_layout (setBcp47Locale tag configuration))
    by (intros tag; by apply Hsplit).
  destruct locales as [[|l0 ls]|]; cbn -[locale_configs].
  - split; [done|by constructor].
  - pose proof (locale_configs_spec (layout_split screen_layout) configuration
                  (l0 :: ls) Hl) as Hspec.
    destruct (locale_configs configuration (l0 :: ls)) as [cs|].
    + destruct Hspec as [HP Hlen]. cbn. split; [|done].
      intros ->. cbn in Hlen. lia.
    + eauto.
  - split; [done|by constructor].
Qed.

(** ** Indirection overrun *)

(** In the table engine a chain that stays among references never
    resolves, whatever the bound: a self-reference, a cycle. *)
Lemma resolve_chain_overrun (tbl : gmap Z SelectedValue)
  (on_chain : SelectedValue -> Prop) :
  (forall v, on_chain v ->
     type v = TYPE_REFERENCE /\ data v <> 0
     /\ exists next, tbl !! data v = Some next /\ on_chain next) ->
  forall fuel v, on_chain v -> resolve_chain tbl fuel v = None.
Proof.
  intros Hclosed. induction fuel as [|fuel IH]; intros v Hv;
    destruct (Hclosed v Hv) as (Hty & Hda & next & Hnext & Hon); cbn;
    rewrite bool_decide_eq_true_2, bool_decide_eq_false_2 by done; cbn.
  - reflexivity.
  - rewrite Hnext. by apply IH.
Qed.

(** C5: when [NativeGetResourceValue] is asked to resolve references and
    the engine reports that the chain of the selected value cannot be
    resolved, the call returns the invalid Java cookie -1 with no exception
    pending and the [TypedValue] untouched. *)
Theorem NativeGetResourceValue_unresolved_is_not_found
  (ptr : Z) (resid density : Z) (typed_value : gmap string jvalue)
  (value : SelectedValue) :
  GetResource (AssetManagerFromLong ptr) (to_uint32 resid) false (to_uint16 density)
    = Some value ->
  ResolveReference (AssetManagerFromLong ptr) value = None ->
  NativeGetResourceValue ptr resid density typed_value true
    = Return (-1, typed_value).
Proof.
  intros Hget Hres. unfold NativeGetResourceValue.
  by rewrite Hget, Hres, ApkAssetsCookieToJavaCookie_invalid.
Qed.

(** ** Access modes *)

(** C6: an access mode that is none of the four enumerators is refused at
    the boundary: [NativeOpenAsset] and [NativeOpenNonAsset] return 0 with
    IllegalArgumentException pending and make no call to the engine. When
    the asset path is null as well, the caller error raised is the
    NullPointerException of the path, which is tested first; 0 is returned
    and the engine is not called either. *)
Theorem bad_access_mode_rejected (ptr jcookie access_mode : Z)
  (asset_path : option string) :
  access_mode <> ACCESS_UNKNOWN -> access_mode <> ACCESS_RANDOM ->
  access_mode <> ACCESS_STREAMING -> access_mode <> ACCESS_BUFFER ->
  let expected :=
    match asset_path with
    | Some _ => Throw (IllegalArgumentException "Bad access mode") 0
    | None => Throw NullPointerException 0
    end in
  NativeOpenAsset ptr asset_path access_mode = ([], expected)
  /\ NativeOpenNonAsset ptr jcookie asset_path access_mode = ([], expected).
Proof.
  intros H1 H2 H3 H4.
  assert (Hbad : bad_access_mode access_mode = true).
  { unfold bad_access_mode. by rewrite !bool_decide_eq_true_2. }
  unfold NativeOpenAsset, NativeOpenNonAsset.
  destruct asset_path; cbn; rewrite ?Hbad; done.
Qed.

(** ** Bag lookup by key *)

Lemma find_all_false {A} (f : A -> bool) (l : list A) :
  (forall x, In x l -> f x = false) -> List.find f l = None.
Proof.
  induction l as [|a l IH]; intros Hf; [reflexivity|].
  cbn. rewrite (Hf a) by (by left). apply IH. intros x Hx. apply Hf. by right.
Qed.

Lemma find_last_entry_none k bag :
  Forall (fun e => key e <> to_uint32 k) (entries bag) ->
  find_last_entry k bag = None.
Proof.
  intros Hall. unfold find_last_entry.
  apply find_all_false. intros e He.
  apply bool_decide_eq_false_2.
  rewrite Forall_forall in Hall. apply Hall.
  apply list_elem_of_In. by apply in_rev.
Qed.

Lemma find_first_hit {A} (f : A -> bool) (skipped : list A) (e : A) (rest : list A) :
  f e = true -> (forall x, In x skipped -> f x = false) ->
  List.find f (skipped ++ e :: rest) = Some e.
Proof.
  intros He. induction skipped as [|a skipped IH]; intros Hs; cbn.
  - by rewrite He.
  - rewrite (Hs a) by (by left). apply IH. intros x Hx. apply Hs. by right.
Qed.

Lemma find_rev_last {A} (f : A -> bool) (pre : list A) (e : A) (post : list A) :
  f e = true -> Forall (fun x => f x = false) post ->
  List.find f (rev (pre ++ e :: post)) = Some e.
Proof.
  intros He Hpost. rewrite rev_app_distr. cbn [rev]. rewrite <- app_assoc. cbn [app].
  apply find_first_hit; [done|].
  intros x Hx. apply in_rev in Hx.
  rewrite Forall_forall in Hpost. apply Hpost. by apply list_elem_of_In.
Qed.

Lemma find_last_entry_some k bag pre e post :
  entries bag = pre ++ e :: post ->
  key e = to_uint32 k ->
  Forall (fun e' => key e' <> to_uint32 k) post ->
  find_last_entry k bag = Some e.
Proof.
  intros Hsplit Hkey Hpost. unfold find_last_entry. rewrite Hsplit.
  apply find_rev_last.
  - by apply bool_decide_eq_true_2.
  - eapply Forall_impl; [exact Hpost|].
    intros x Hx. by apply bool_decide_eq_false_2.
Qed.

(** C3 (amended): [NativeGetResourceBagValue] answers from the last entry
    of the bag, in merge order, whose key equals the requested key: it
    returns what reference resolution makes of that entry's value, copied
    into the [TypedValue], or the invalid cookie -1 when that value cannot
    be resolved; when no entry has the key it returns -1. *)
Theorem NativeGetResourceBagValue_last_match
  (ptr resid bag_entry_id : Z) (typed_value : gmap string jvalue)
  (bag : ResolvedBag) :
  GetBag (AssetManagerFromLong ptr) (to_uint32 resid) = Some bag ->
  (Forall (fun e => key e <> to_uint32 bag_entry_id) (entries bag) ->
   NativeGetResourceBagValue ptr resid bag_entry_id typed_value
     = Return (-1, typed_value))
  /\ (forall pre e post,
        entries bag = pre ++ e :: post ->
        key e = to_uint32 bag_entry_id ->
        Forall (fun e' => key e' <> to_uint32 bag_entry_id) post ->
        NativeGetResourceBagValue ptr resid bag_entry_id typed_value
        = match ResolveReference (AssetManagerFromLong ptr)
                  (SelectedValue_of_entry bag e) with
          | Some attr_value => Return (CopyValue attr_value typed_value)
          | None => Return (-1, typed_value)
          end).
Proof.
  intros Hbag.
  unfold NativeGetResourceBagValue.
  rewrite Hbag, ApkAssetsCookieToJavaCookie_invalid. split.
  - intros Hall. by rewrite find_last_entry_none.
  - intros pre e post Hsplit Hkey Hpost.
    by rewrite (find_last_entry_some _ _ pre e post).
Qed.

End ResourceProperties.

(** ** The flattened bag table *)

Lemma store_Some (buffer : list Z) i v buffer' :
  store buffer i v = Some buffer' ->
  0 <= i < Z.of_nat (length buffer) /\ buffer' = <[Z.to_nat i := v]> buffer.
Proof.
  unfold store. destruct (decide _); [|discriminate]. intros [= <-]. done.
Qed.

Lemma store_length (buffer : list Z) i v buffer' :
  store buffer i v = Some buffer' -> length buffer' = length buffer.
Proof. intros [_ ->]%store_Some. apply length_insert. Qed.

Lemma store_lookup_eq (buffer : list Z) i v buffer' :
  store buffer i v = Some buffer' -> buffer' !! Z.to_nat i = Some v.
Proof.
  intros [Hi ->]%store_Some. apply list_lookup_insert_eq. lia.
Qed.

Lemma store_lookup_ne (buffer : list Z) i v buffer' (j : Z) :
  store buffer i v = Some buffer' -> 0 <= j -> j <> i ->
  buffer' !! Z.to_nat j = buffer !! Z.to_nat j.
Proof.
  intros [Hi ->]%store_Some Hj Hne. apply list_lookup_insert_ne. lia.
Qed.

Section BagTable.
Context `{AndroidFw} `{Engine}.

Lemma write_entry_spec cursor attr_value (buffer buffer' : list Z) :
  style_layout_ok -> 0 <= cursor ->
  write_entry cursor attr_value buffer = Some buffer' ->
  buffer' !! Z.to_nat (cursor + STYLE_TYPE) = Some (to_jint (type attr_value))
  /\ buffer' !! Z.to_nat (cursor + STYLE_DATA) = Some (to_jint (data attr_value))
  /\ (forall j, 0 <= j < cursor -> buffer' !! Z.to_nat j = buffer !! Z.to_nat j).
Proof.
  intros (Ht & Hd & Hc & Hr & Hcc & Hde & Htd & [] & [] & [] & []) Hcur Hw.
  unfold write_entry in Hw.
  destruct (store buffer _ _) as [b1|] eqn:S1; [cbn in Hw|discriminate].
  destruct (store b1 _ _) as [b2|] eqn:S2; [cbn in Hw|discriminate].
  destruct (store b2 _ _) as [b3|] eqn:S3; [cbn in Hw|discriminate].
  destruct (store b3 _ _) as [b4|] eqn:S4; [cbn in Hw|discriminate].
  destruct (store b4 _ _) as [b5|] eqn:S5; [cbn in Hw|discriminate].
  split; [|split].
  - rewrite (store_lookup_ne _ _ _ _ _ Hw), (store_lookup_ne _ _ _ _ _ S5),
      (store_lookup_ne _ _ _ _ _ S4), (store_lookup_ne _ _ _ _ _ S3),
      (store_lookup_ne _ _ _ _ _ S2) by lia.
    by apply store_lookup_eq in S1.
  - rewrite (store_lookup_ne _ _ _ _ _ Hw), (store_lookup_ne _ _ _ _ _ S5),
      (store_lookup_ne _ _ _ _ _ S4), (store_lookup_ne _ _ _ _ _ S3) by lia.
    by apply store_lookup_eq in S2.
  - intros j Hj.
    rewrite (store_lookup_ne _ _ _ _ _ Hw), (store_lookup_ne _ _ _ _ _ S5),
      (store_lookup_ne _ _ _ _ _ S4), (store_lookup_ne _ _ _ _ _ S3),
      (store_lookup_ne _ _ _ _ _ S2), (store_lookup_ne _ _ _ _ _ S1) by lia.
    reflexivity.
Qed.

(** The loop leaves, for each entry, the type and data of its normalized
    value at the entry's stride, and does not touch what lies before the
    cursor it started from. *)
Lemma write_entries_spec assetmanager bag es :
  style_layout_ok ->
  forall cursor (buffer out : list Z),
  0 <= cursor ->
  write_entries assetmanager bag es cursor buffer = Written out ->
  (forall j, 0 <= j < cursor -> out !! Z.to_nat j = buffer !! Z.to_nat j)
  /\ (forall (i : nat) e attr_value,
        es !! i = Some e ->
        ResolveReference assetmanager (SelectedValue_of_entry bag e) = Some attr_value ->
        out !! Z.to_nat (cursor + Z.of_nat i * STYLE_NUM_ENTRIES + STYLE_TYPE)
          = Some (to_jint (type (null_normalize attr_value)))
        /\ out !! Z.to_nat (cursor + Z.of_nat i * STYLE_NUM_ENTRIES + STYLE_DATA)
          = Some (to_jint (data (null_normalize attr_value)))).
Proof.
  intros Hlay. pose proof Hlay as (Ht & Hd & _).
  induction es as [|e0 rest IH]; intros cursor buffer out Hcur Hw; cbn in Hw.
  - injection Hw as <-. split; [done|]. intros i e v Hi. by destruct i.
  - destruct (ResolveReference assetmanager (SelectedValue_of_entry bag e0))
      as [v0|] eqn:Hres; [|discriminate].
    destruct (write_entry cursor (null_normalize v0) buffer) as [b'|] eqn:Hwe;
      [|discriminate].
    destruct (write_entry_spec _ _ _ _ Hlay Hcur Hwe) as (Hty & Hda & Hbefore).
    assert (Hnext : 0 <= cursor + STYLE_NUM_ENTRIES) by lia.
    destruct (IH (cursor + STYLE_NUM_ENTRIES) b' out Hnext Hw) as [IH1 IH2].
    split.
    + intros j Hj. rewrite IH1 by lia. by apply Hbefore.
    + intros [|i] e v Hi Hv.
      * cbn in Hi. injection Hi as <-. rewrite Hres in Hv. injection Hv as <-.
        replace (cursor + Z.of_nat 0 * STYLE_NUM_ENTRIES) with cursor by lia.
        rewrite !IH1 by lia. done.
      * cbn in Hi. destruct (IH2 i e v Hi Hv) as [I1 I2].
        replace (cursor + Z.of_nat (S i) * STYLE_NUM_ENTRIES)
          with (cursor + STYLE_NUM_ENTRIES + Z.of_nat i * STYLE_NUM_ENTRIES) by lia.
        done.
Qed.

Lemma null_normalize_null attr_value :
  type attr_value = TYPE_REFERENCE -> data attr_value = 0 ->
  type (null_normalize attr_value) = TYPE_NULL
  /\ data (null_normalize attr_value) = DATA_NULL_UNDEFINED.
Proof.
  intros Ht Hd. unfold null_normalize.
  by rewrite !bool_decide_eq_true_2.
Qed.

(** The guard of [NativeGetResourceArray] as the source has it: the entry
    count against the array length times the stride. *)
Lemma NativeGetResourceArray_guard env ptr resid (out_data : list Z) bag :
  GetBag (AssetManagerFromLong ptr) (to_uint32 resid) = Some bag ->
  NativeGetResourceArray env ptr resid out_data
    = Throw (IllegalArgumentException "Input array is not large enough")
            (-1, out_data)
  <-> to_jint (entry_count bag)
      > to_jint (Z.of_nat (length out_data) * STYLE_NUM_ENTRIES).
Proof.
  intros Hbag. unfold NativeGetResourceArray. rewrite Hbag. cbn zeta.
  destruct (decide _) as [Hgt|Hle]; [done|].
  split; [|done].
  destruct (negb (critical env 0)); [discriminate|].
  by destruct (write_entries _ _ _ _ _).
Qed.

(** C4: when [NativeGetResourceArray] fills the output array, every bag
    entry whose resolved value is a reference to resource id 0 has
    [TYPE_NULL] in the type slot and [DATA_NULL_UNDEFINED] in the data slot
    of its stride, and so (the two type tags being different octets) not
    the reference tag. *)
Theorem NativeGetResourceArray_null_normalized
  (env : JNIEnv) (ptr resid : Z) (out_data out : list Z) (bag : ResolvedBag)
  (n : Z) (i : nat) (e : Entry) (attr_value : SelectedValue) :
  style_layout_ok ->
  GetBag (AssetManagerFromLong ptr) (to_uint32 resid) = Some bag ->
  NativeGetResourceArray env ptr resid out_data = Return (n, out) ->
  n <> -1 ->
  entries bag !! i = Some e ->
  ResolveReference (AssetManagerFromLong ptr) (SelectedValue_of_entry bag e)
    = Some attr_value ->
  type attr_value = TYPE_REFERENCE -> data attr_value = 0 ->
  out !! Z.to_nat (Z.of_nat i * STYLE_NUM_ENTRIES + STYLE_TYPE)
    = Some (to_jint TYPE_NULL)
  /\ out !! Z.to_nat (Z.of_nat i * STYLE_NUM_ENTRIES + STYLE_DATA)
    = Some (to_jint DATA_NULL_UNDEFINED)
  /\ (0 <= TYPE_NULL < 256 -> 0 <= TYPE_REFERENCE < 256 ->
      TYPE_NULL <> TYPE_REFERENCE ->
      out !! Z.to_nat (Z.of_nat i * STYLE_NUM_ENTRIES + STYLE_TYPE)
        <> Some (to_jint TYPE_REFERENCE)).
Proof.
  intros Hlay Hbag Hrun Hn Hi Hres Hty Hda.
  unfold NativeGetResourceArray in Hrun. rewrite Hbag in Hrun.
  destruct (decide _) as [|_] in Hrun; [discriminate|].
  destruct (negb (critical env 0)); [injection Hrun as <- _; contradiction|].
  destruct (write_entries _ _ _ _ _) as [buffer|buffer|] eqn:Hw in Hrun;
    [|injection Hrun as <- _; contradiction|discriminate].
  injection Hrun as _ <-. cbn [ReleasePrimitiveArrayCritical].
  destruct (write_entries_spec _ _ _ Hlay 0 out_data buffer (Z.le_refl 0) Hw)
    as [_ Hslots].
  destruct (Hslots i e attr_value Hi Hres) as [H1 H2].
  destruct (null_normalize_null attr_value Hty Hda) as [N1 N2].
  rewrite N1 in H1. rewrite N2 in H2.
  replace (0 + Z.of_nat i * STYLE_NUM_ENTRIES) with (Z.of_nat i * STYLE_NUM_ENTRIES)
    in H1, H2 by lia.
  split; [done|split; [done|]].
  intros R1 R2 Hne. rewrite H1. intros [= Heq].
  rewrite !to_jint_small in Heq by (unfold INT32_MIN, INT32_MAX; lia). done.
Qed.

End BagTable.

(** ** Themes *)

(** A native method [f] whose first CHECK is the ownership test [Hown]
    knows to be false. *)
Tactic Notation "failed_check" reference(f) hyp(Hown) :=
  intros; unfold f, CHECK; rewrite Hown; reflexivity.

Section ThemeProperties.
Context `{AndroidFw} `{Engine} `{AttributeResolution}.

Lemma Theme_ApplyStyle_owner theme resid force :
  asset_manager_ (Theme_ApplyStyle theme resid force).1 = asset_manager_ theme.
Proof. unfold Theme_ApplyStyle. by destruct (GetBag _ _). Qed.

Lemma apply_styles_owner styles : forall theme,
  asset_manager_ (apply_styles theme styles) = asset_manager_ theme.
Proof.
  unfold apply_styles.
  induction styles as [|s styles IH]; intros theme; cbn; [done|].
  by rewrite IH, Theme_ApplyStyle_owner.
Qed.

Lemma Theme_ApplyStyle_log theme resid force :
  rebase_log (Theme_ApplyStyle theme resid force).1
  = rebase_log theme ++ [(resid, force)].
Proof. unfold Theme_ApplyStyle. by destruct (GetBag _ _). Qed.

Lemma apply_styles_log styles : forall theme,
  rebase_log (apply_styles theme styles) = rebase_log theme ++ styles.
Proof.
  unfold apply_styles.
  induction styles as [|[resid force] styles IH]; intros theme; cbn.
  - by rewrite app_nil_r.
  - by rewrite IH, Theme_ApplyStyle_log, <- app_assoc.
Qed.

(** Replaying all of a recorded sequence on a cleared theme. *)
Lemma Theme_Rebase_replay theme ptr (log : list (Z * bool)) :
  Theme_Rebase theme ptr log.*1 log.*2 (length log)
  = apply_styles (NewTheme ptr) log.
Proof.
  unfold Theme_Rebase, NewTheme.
  rewrite !firstn_all2 by (rewrite ?length_fmap; lia).
  by rewrite zip_fst_snd.
Qed.

Lemma apply_styles_native_owned ptr styles : forall theme,
  asset_manager_ theme = ptr ->
  apply_styles_native ptr theme styles
  = Return (apply_styles theme (map as_engine_style styles)).
Proof.
  induction styles as [|[resid force] styles IH]; intros theme Hown; cbn.
  - reflexivity.
  - unfold NativeThemeApplyStyle, CHECK, owns.
    rewrite bool_decide_eq_true_2 by done.
    rewrite IH by (by rewrite Theme_ApplyStyle_owner). reflexivity.
Qed.

Lemma zip_engine_styles (styles : list (Z * bool)) :
  zip (map to_uint32 styles.*1) styles.*2 = map as_engine_style styles.
Proof.
  induction styles as [|[resid force] styles IH]; cbn; [done|]. by rewrite IH.
Qed.

Lemma NativeThemeRebase_runs env ptr theme (style_ids : list Z) (force : list bool)
  (style_count : Z) :
  0 <= style_count <= Z.of_nat (length style_ids) ->
  style_count <= Z.of_nat (length force) ->
  critical env 0 = true -> critical env 1 = true ->
  NativeThemeRebase env ptr theme (Some style_ids) (Some force) style_count
  = Return (Theme_Rebase theme ptr
              (take (Z.to_nat style_count) (map to_uint32 style_ids))
              (take (Z.to_nat style_count) force) (Z.to_nat style_count)).
Proof.
  intros Hids Hforce Hp0 Hp1. unfold NativeThemeRebase, CHECK.
  rewrite !bool_decide_eq_true_2 by (done || lia).
  rewrite Hp0, Hp1. cbn.
  destruct (decide (style_count < 0)); [lia|]. reflexivity.
Qed.

(** C8: for every context (handle [ptr]) and every sequence of
    (style id, force) pairs, applying the styles one by one to a fresh theme
    of the context and rebasing any theme onto the context with the same
    sequence give the same flattened attribute table (indeed the same
    theme), at the level of the engine's [ApplyStyle] and [Rebase] and
    through [NativeThemeApplyStyle] and [NativeThemeRebase] when the VM
    pins the two arrays; the log of the theme so built is the sequence
    applied, and replaying the log rebuilds the theme. *)
Theorem theme_rebase_equivalence (env : JNIEnv) (ptr : Z) (theme : Theme)
  (styles : list (Z * bool)) :
  critical env 0 = true -> critical env 1 = true ->
  entries_ (Theme_Rebase theme ptr (map to_uint32 styles.*1) styles.*2
              (length styles))
  = entries_ (apply_styles (NewTheme ptr) (map as_engine_style styles))
  /\ exists applied rebased,
      apply_styles_native ptr (NativeThemeCreate ptr) styles = Return applied
      /\ NativeThemeRebase env ptr theme (Some styles.*1) (Some styles.*2)
           (Z.of_nat (length styles)) = Return rebased
      /\ entries_ applied = entries_ rebased
      /\ applied = rebased
      /\ rebase_log applied = map as_engine_style styles
      /\ Theme_Rebase applied ptr (rebase_log applied).*1 (rebase_log applied).*2
           (length (rebase_log applied)) = applied.
Proof.
  intros Hp0 Hp1.
  assert (Hreb : Theme_Rebase theme ptr (map to_uint32 styles.*1) styles.*2
                   (length styles)
                 = apply_styles (NewTheme ptr) (map as_engine_style styles)).
  { unfold Theme_Rebase, NewTheme.
    rewrite !firstn_all2 by (rewrite ?length_map, ?length_fmap; lia).
    by rewrite zip_engine_styles. }
  assert (Hlog : rebase_log (apply_styles (NewTheme ptr) (map as_engine_style styles))
                 = map as_engine_style styles)
    by (by rewrite apply_styles_log).
  split; [by rewrite Hreb|].
  exists (apply_styles (NewTheme ptr) (map as_engine_style styles)),
         (apply_styles (NewTheme ptr) (map as_engine_style styles)).
  split; [by apply apply_styles_native_owned|].
  split; [|split; [done|split; [done|split; [done|]]]].
  - rewrite NativeThemeRebase_runs
      by (rewrite ?length_fmap; (done || lia)).
    rewrite Nat2Z.id.
    rewrite !firstn_all2 by (rewrite ?length_map, ?length_fmap; lia).
    by rewrite Hreb.
  - by rewrite Theme_Rebase_replay, Hlog.
Qed.

(** C7 (amended): when the theme is attached to a context other than the
    one locked through [ptr], the CHECK fails in
    [NativeAttributeResolutionStack], [NativeApplyStyle],
    [NativeApplyStyleWithArray], [NativeThemeApplyStyle],
    [NativeThemeGetAttributeValue] and [NativeThemeDump], in
    [NativeResolveAttrs] once its buffers are accepted (before that it
    returns false and leaves the outputs alone), and in [NativeThemeCopy]
    for the source theme and, when the two handles differ, for the
    destination theme. [NativeThemeRebase] makes no such check: given
    arrays that cover [style_count] it returns normally and leaves the theme
    attached to the locked context. *)
Theorem theme_owner_checked (env : JNIEnv) (ptr : Z) (theme : Theme) :
  asset_manager_ theme <> ptr ->
  (forall xml_style_res def_style_attr def_style_resid,
     NativeAttributeResolutionStack env ptr theme xml_style_res def_style_attr
       def_style_resid = Abort)
  /\ (forall def_style_attr def_style_resid xml_parser_ptr java_attrs out,
        NativeApplyStyle env ptr theme def_style_attr def_style_resid
          xml_parser_ptr java_attrs out = Abort)
  /\ (forall def_style_attr def_style_resid xml_parser_ptr java_attrs
        java_values java_indices,
        NativeApplyStyleWithArray env ptr theme def_style_attr def_style_resid
          xml_parser_ptr java_attrs java_values java_indices = Abort)
  /\ (forall def_style_attr def_style_resid java_values java_attrs
        out_java_values out_java_indices,
        let untouched :=
          {| out_values := out_java_values; out_indices := out_java_indices |} in
        match NativeResolveAttrs env ptr theme def_style_attr def_style_resid
                java_values java_attrs out_java_values out_java_indices with
        | Abort => True
        | Return r => r = (false, untouched)
        | Throw e r =>
            e = IndexOutOfBoundsException "outValues too small"
            /\ r = (false, untouched)
        | Fault => False
        end)
  /\ (forall def_style_attr def_style_resid java_values java_attrs
        out_java_values out_java_indices,
        to_jint (Z.of_nat (length java_attrs) * STYLE_NUM_ENTRIES)
          <= Z.of_nat (length out_java_values) ->
        (forall k, critical env k = true) ->
        NativeResolveAttrs env ptr theme def_style_attr def_style_resid
          java_values java_attrs out_java_values out_java_indices = Abort)
  /\ (forall resid force, NativeThemeApplyStyle ptr theme resid force = Abort)
  /\ (forall resid typed_value resolve_references,
        NativeThemeGetAttributeValue ptr theme resid typed_value
          resolve_references = Abort)
  /\ NativeThemeDump ptr theme = Abort
  /\ (forall dst_asset_manager_ptr dst_theme,
        NativeThemeCopy dst_asset_manager_ptr dst_theme ptr theme = Abort)
  /\ (forall src_asset_manager_ptr src_theme,
        src_asset_manager_ptr <> ptr ->
        NativeThemeCopy ptr theme src_asset_manager_ptr src_theme = Abort)
  /\ (forall style_ids force style_count,
        0 <= style_count <= Z.of_nat (length style_ids) ->
        style_count <= Z.of_nat (length force) ->
        critical env 0 = true -> critical env 1 = true ->
        exists rebased,
          NativeThemeRebase env ptr theme (Some style_ids) (Some force)
            style_count = Return rebased
          /\ asset_manager_ rebased = ptr).
Proof.
  intros Hne.
  assert (Hown : owns theme ptr = false) by (by apply bool_decide_eq_false_2).
  repeat match goal with |- _ /\ _ => split end.
  - failed_check NativeAttributeResolutionStack Hown.
  - failed_check NativeApplyStyle Hown.
  - failed_check NativeApplyStyleWithArray Hown.
  - intros. unfold NativeResolveAttrs, CHECK. rewrite Hown. cbn zeta.
    destruct (decide _); [by split|].
    destruct (negb (critical env 0)); [done|].
    destruct (bool_decide (is_Some _) && negb (critical env 1)); [done|].
    destruct (negb (critical env 2)); [done|].
    by destruct (_ && negb (critical env 3)).
  - intros a r vals attrs outv outi Hfit Hpin.
    unfold NativeResolveAttrs, CHECK. rewrite Hown, !Hpin. cbn.
    rewrite !andb_false_r.
    destruct (decide _) as [Hlt|_]; [lia|done].
  - failed_check NativeThemeApplyStyle Hown.
  - failed_check NativeThemeGetAttributeValue Hown.
  - failed_check NativeThemeDump Hown.
  - failed_check NativeThemeCopy Hown.
  - intros src_ptr src Hsrc. unfold NativeThemeCopy, CHECK.
    destruct (owns src src_ptr); [|done].
    destruct (decide (ptr <> src_ptr)) as [_|Heq]; [by rewrite Hown|].
    exfalso. apply Heq. congruence.
  - intros ids frc count Hids Hfrc Hp0 Hp1.
    eexists. split; [by apply NativeThemeRebase_runs|].
    unfold Theme_Rebase. by rewrite apply_styles_owner.
Qed.

End ThemeProperties.

(* ===================================================================== *)
(** * Further properties of the binding *)
(* ===================================================================== *)

Lemma to_uint32_to_jint x : 0 <= x < 2 ^ 32 -> to_uint32 (to_jint x) = x.
Proof.
  intros Hx. unfold to_uint32, to_jint.
  rewrite Zminus_mod_idemp_l.
  replace (x + 2 ^ 31 - 2 ^ 31) with x by lia.
  apply Z.mod_small. lia.
Qed.

Lemma store_in_range (buffer : list Z) i v :
  0 <= i < Z.of_nat (length buffer) ->
  store buffer i v = Some (<[Z.to_nat i := v]> buffer).
Proof. intros Hi. unfold store. by destruct (decide _). Qed.

Section MoreCookies.
Context `{AndroidFw}.

(** The trip from the Java side: a positive Java cookie [j] whose
    predecessor is not [kInvalidCookie] decodes to [j - 1] and encodes back
    to [j]. *)
Theorem java_cookie_round_trip (j : Z) :
  0 < j <= INT32_MAX -> j - 1 <> kInvalidCookie ->
  JavaCookieToApkAssetsCookie j = j - 1
  /\ ApkAssetsCookieToJavaCookie (JavaCookieToApkAssetsCookie j) = j.
Proof.
  intros Hj Hinv.
  assert (Hdec : JavaCookieToApkAssetsCookie j = j - 1).
  { unfold JavaCookieToApkAssetsCookie.
    destruct (decide (j > 0)); [|lia].
    apply to_jint_small. unfold INT32_MIN, INT32_MAX in *. lia. }
  split; [done|]. rewrite Hdec.
  rewrite encode_valid by (done || lia). lia.
Qed.

(** Two different cookies below [2^31 - 1], neither the invalid one, have
    different Java forms. *)
Theorem ApkAssetsCookieToJavaCookie_injective (c1 c2 : Z) :
  c1 <> kInvalidCookie -> c2 <> kInvalidCookie ->
  0 <= c1 < INT32_MAX -> 0 <= c2 < INT32_MAX ->
  ApkAssetsCookieToJavaCookie c1 = ApkAssetsCookieToJavaCookie c2 -> c1 = c2.
Proof.
  intros H1 H2 R1 R2. rewrite !encode_valid by done. lia.
Qed.

Lemma CopyValue_result (value : SelectedValue) (typed_value : gmap string jvalue) :
  typed_value_result typed_value (CopyValue value typed_value).
Proof.
  right. cbn -[to_jint ApkAssetsCookieToJavaCookie].
  unfold SetIntField, SetObjectField.
  split; [by simplify_map_eq|]. split; [by simplify_map_eq|]. split.
  - do 5 eexists. repeat split; by simplify_map_eq.
  - intros f Hf.
    repeat (rewrite lookup_insert_ne; [|intros <-; apply Hf; set_solver]).
    reflexivity.
Qed.

End MoreCookies.

Section LookupResults.
Context `{AndroidFw} `{Engine} `{AttributeResolution}.

(** The three lookups that fill a [TypedValue] raise nothing, and either
    return -1 and leave the object alone or return the Java cookie they
    stored in [assetCookie], with the string reset and no field outside the
    seven touched; the theme lookup aborts instead when the theme is not of
    the locked context. *)
Theorem lookups_fill_typed_value (ptr resid density bag_entry_id : Z)
  (theme : Theme) (typed_value : gmap string jvalue) (resolve_references : bool) :
  (exists r, NativeGetResourceValue ptr resid density typed_value
               resolve_references = Return r
             /\ typed_value_result typed_value r)
  /\ (exists r, NativeGetResourceBagValue ptr resid bag_entry_id typed_value
                  = Return r
                /\ typed_value_result typed_value r)
  /\ ((asset_manager_ theme <> ptr
       /\ NativeThemeGetAttributeValue ptr theme resid typed_value
            resolve_references = Abort)
      \/ (asset_manager_ theme = ptr
          /\ exists r, NativeThemeGetAttributeValue ptr theme resid typed_value
                         resolve_references = Return r
                       /\ typed_value_result typed_value r)).
Proof.
  assert (Hnone : typed_value_result typed_value
                    (ApkAssetsCookieToJavaCookie kInvalidCookie, typed_value)).
  { left. by rewrite ApkAssetsCookieToJavaCookie_invalid. }
  split; [|split].
  - unfold NativeGetResourceValue.
    destruct (GetResource _ _ _ _) as [value|]; [|eauto].
    destruct resolve_references; [|eauto using CopyValue_result].
    destruct (ResolveReference _ _); eauto using CopyValue_result.
  - unfold NativeGetResourceBagValue.
    destruct (GetBag _ _) as [bag|]; [|eauto].
    destruct (find_last_entry _ _) as [entry|]; [|eauto].
    destruct (ResolveReference _ _); eauto using CopyValue_result.
  - unfold NativeThemeGetAttributeValue, CHECK, owns.
    destruct (decide (asset_manager_ theme = ptr)) as [Hown|Hown].
    + right. split; [done|]. rewrite bool_decide_eq_true_2 by done.
      destruct (Theme_GetAttribute _ _) as [value|]; [|eauto].
      destruct resolve_references; cbn; [|eauto using CopyValue_result].
      destruct (ResolveReference _ _); eauto using CopyValue_result.
    + left. split; [done|]. by rewrite bool_decide_eq_false_2.
Qed.

End LookupResults.

Section MoreBagTable.
Context `{AndroidFw} `{ResValueTypes} `{Engine}.

Lemma write_entry_length cursor attr_value (buffer buffer' : list Z) :
  write_entry cursor attr_value buffer = Some buffer' ->
  length buffer' = length buffer.
Proof.
  unfold write_entry. intros Hw.
  destruct (store buffer _ _) as [b1|] eqn:S1; [cbn in Hw|discriminate].
  destruct (store b1 _ _) as [b2|] eqn:S2; [cbn in Hw|discriminate].
  destruct (store b2 _ _) as [b3|] eqn:S3; [cbn in Hw|discriminate].
  destruct (store b3 _ _) as [b4|] eqn:S4; [cbn in Hw|discriminate].
  destruct (store b4 _ _) as [b5|] eqn:S5; [cbn in Hw|discriminate].
  apply store_length in S1, S2, S3, S4, S5, Hw. congruence.
Qed.

Lemma write_entries_length assetmanager bag es : forall cursor (buffer out : list Z),
  write_entries assetmanager bag es cursor buffer = Written out
  \/ write_entries assetmanager bag es cursor buffer = ResolveFailed out ->
  length out = length buffer.
Proof.
  induction es as [|e rest IH]; intros cursor buffer out Hw; cbn in Hw.
  - destruct Hw as [[= <-]|[=]]. done.
  - destruct (ResolveReference _ _) as [v|].
    + destruct (write_entry _ _ _) as [b'|] eqn:Hwe.
      * rewrite (IH _ _ _ Hw). by apply write_entry_length in Hwe.
      * by destruct Hw.
    + destruct Hw as [[=]|[= <-]]. done.
Qed.

(** [NativeGetResourceArray] never changes the length of the array, raises
    no exception but IllegalArgumentException, and leaves the array as it
    was when it raises it. *)
Theorem NativeGetResourceArray_keeps_length (env : JNIEnv) (ptr resid : Z)
  (out_data : list Z) :
  match NativeGetResourceArray env ptr resid out_data with
  | Return (n, out) => length out = length out_data
  | Throw e (n, out) =>
      e = IllegalArgumentException "Input array is not large enough"
      /\ n = -1 /\ out = out_data
  | Abort => False
  | Fault => True
  end.
Proof.
  unfold NativeGetResourceArray.
  destruct (GetBag _ _) as [bag|]; [|done]. cbn zeta.
  destruct (decide _); [done|].
  destruct (negb (critical env 0)); [done|].
  destruct (write_entries _ _ _ _ _) as [buffer|buffer|] eqn:Hw; [| |done].
  - cbn. eapply write_entries_length. by left.
  - cbn. destruct (is_copy env); [done|].
    eapply write_entries_length. by right.
Qed.

Lemma dense_distinct :
  style_layout_dense ->
  STYLE_TYPE <> STYLE_DATA /\ STYLE_TYPE <> STYLE_ASSET_COOKIE
  /\ STYLE_TYPE <> STYLE_RESOURCE_ID
  /\ STYLE_TYPE <> STYLE_CHANGING_CONFIGURATIONS /\ STYLE_TYPE <> STYLE_DENSITY
  /\ STYLE_DATA <> STYLE_ASSET_COOKIE /\ STYLE_DATA <> STYLE_RESOURCE_ID
  /\ STYLE_DATA <> STYLE_CHANGING_CONFIGURATIONS /\ STYLE_DATA <> STYLE_DENSITY
  /\ STYLE_ASSET_COOKIE <> STYLE_RESOURCE_ID
  /\ STYLE_ASSET_COOKIE <> STYLE_CHANGING_CONFIGURATIONS
  /\ STYLE_ASSET_COOKIE <> STYLE_DENSITY
  /\ STYLE_RESOURCE_ID <> STYLE_CHANGING_CONFIGURATIONS
  /\ STYLE_RESOURCE_ID <> STYLE_DENSITY
  /\ STYLE_CHANGING_CONFIGURATIONS <> STYLE_DENSITY.
Proof.
  intros (_ & _ & _ & _ & _ & _ & Hnd).
  repeat (apply NoDup_cons in Hnd as [? Hnd]).
  set_unfold. naive_solver.
Qed.

Lemma slot_index_ne (cursor a b : Z) :
  0 <= cursor -> 0 <= a -> 0 <= b -> a <> b ->
  Z.to_nat (cursor + a) <> Z.to_nat (cursor + b).
Proof. lia. Qed.

Lemma write_entry_dense cursor attr_value (buffer : list Z) :
  style_layout_dense -> 0 <= cursor ->
  cursor + STYLE_NUM_ENTRIES <= Z.of_nat (length buffer) ->
  exists buffer',
    write_entry cursor attr_value buffer = Some buffer'
    /\ stride_holds buffer' cursor attr_value
    /\ (forall j, 0 <= j -> j < cursor \/ cursor + STYLE_NUM_ENTRIES <= j ->
          buffer' !! Z.to_nat j = buffer !! Z.to_nat j).
Proof.
  intros Hdense Hcur Hfit.
  pose proof Hdense as (R1 & R2 & R3 & R4 & R5 & R6 & _).
  unfold write_entry.
  rewrite store_in_range by lia. cbn [mbind option_bind].
  rewrite store_in_range by (rewrite ?length_insert; lia). cbn [mbind option_bind].
  rewrite store_in_range by (rewrite ?length_insert; lia). cbn [mbind option_bind].
  rewrite store_in_range by (rewrite ?length_insert; lia). cbn [mbind option_bind].
  rewrite store_in_range by (rewrite ?length_insert; lia). cbn [mbind option_bind].
  rewrite store_in_range by (rewrite ?length_insert; lia).
  eexists. split; [reflexivity|]. split.
  - unfold stride_holds.
    repeat split;
      rewrite ?list_lookup_insert_ne
        by (apply slot_index_ne;
            [lia|lia|lia|
             pose proof (dense_distinct Hdense); intuition congruence]);
      (apply list_lookup_insert_eq; rewrite ?length_insert; lia).
  - intros j Hj Hout. by rewrite !list_lookup_insert_ne by lia.
Qed.

Lemma stride_holds_transfer (out b : list Z) cursor attr_value :
  style_layout_dense -> 0 <= cursor ->
  (forall j, 0 <= j -> j < cursor + STYLE_NUM_ENTRIES ->
     out !! Z.to_nat j = b !! Z.to_nat j) ->
  stride_holds b cursor attr_value -> stride_holds out cursor attr_value.
Proof.
  intros (R1 & R2 & R3 & R4 & R5 & R6 & _) Hcur Hsame.
  unfold stride_holds. intros (S1 & S2 & S3 & S4 & S5 & S6).
  rewrite !Hsame by lia. done.
Qed.

(** With room for every entry and every entry resolved, the loop of
    [NativeGetResourceArray] fills one stride per entry and touches nothing
    else. *)
Lemma write_entries_dense assetmanager bag es :
  style_layout_dense ->
  forall cursor (buffer : list Z),
  0 <= cursor ->
  cursor + Z.of_nat (length es) * STYLE_NUM_ENTRIES <= Z.of_nat (length buffer) ->
  Forall (fun e => is_Some (ResolveReference assetmanager
                              (SelectedValue_of_entry bag e))) es ->
  exists out,
    write_entries assetmanager bag es cursor buffer = Written out
    /\ (forall j, 0 <= j ->
          j < cursor \/ cursor + Z.of_nat (length es) * STYLE_NUM_ENTRIES <= j ->
          out !! Z.to_nat j = buffer !! Z.to_nat j)
    /\ (forall (i : nat) e attr_value,
          es !! i = Some e ->
          ResolveReference assetmanager (SelectedValue_of_entry bag e)
            = Some attr_value ->
          stride_holds out (cursor + Z.of_nat i * STYLE_NUM_ENTRIES)
            (null_normalize attr_value)).
Proof.
  intros Hdense. pose proof Hdense as (R1 & _).
  induction es as [|e0 rest IH]; intros cursor buffer Hcur Hfit Hres; cbn.
  - exists buffer. split; [done|]. split; [done|]. intros i e v Hi. by destruct i.
  - apply Forall_cons in Hres as [[v0 Hv0] Hres]. rewrite Hv0.
    cbn [length] in Hfit.
    destruct (write_entry_dense cursor (null_normalize v0) buffer Hdense Hcur)
      as (b' & Hwe & Hstride & Huntouched); [nia|].
    rewrite Hwe.
    assert (Hlen : length b' = length buffer) by (by apply write_entry_length in Hwe).
    destruct (IH (cursor + STYLE_NUM_ENTRIES) b') as (out & Hw & Hout & Hslots);
      [lia|rewrite Hlen; nia|done|].
    exists out. split; [done|]. split.
    + intros j Hj Hrange. rewrite Hout by nia. apply Huntouched; [done|nia].
    + intros [|i] e v Hi Hv.
      * cbn in Hi. injection Hi as <-. rewrite Hv0 in Hv. injection Hv as <-.
        replace (cursor + Z.of_nat 0 * STYLE_NUM_ENTRIES) with cursor by lia.
        apply (stride_holds_transfer out b'); [done|done| |done].
        intros j Hj Hlt. apply Hout; [done|]. left. lia.
      * cbn in Hi.
        replace (cursor + Z.of_nat (S i) * STYLE_NUM_ENTRIES)
          with (cursor + STYLE_NUM_ENTRIES + Z.of_nat i * STYLE_NUM_ENTRIES) by lia.
        by apply (Hslots i e v).
Qed.

(** The guard of [NativeGetResourceArray] lets a large enough array
    through, as long as seven times its length is still a [jint]. *)
Lemma array_guard_passes (n len : Z) :
  0 < STYLE_NUM_ENTRIES -> 0 <= n ->
  n * STYLE_NUM_ENTRIES <= len -> len * STYLE_NUM_ENTRIES <= INT32_MAX ->
  to_jint n = n /\ ~ to_jint n > to_jint (len * STYLE_NUM_ENTRIES).
Proof.
  intros Hnum Hn Hfit Hmax.
  assert (n <= len) by nia. assert (len <= len * STYLE_NUM_ENTRIES) by nia.
  rewrite !to_jint_small by (unfold INT32_MIN, INT32_MAX in *; lia). lia.
Qed.

(** Given an array of at least [entry_count * STYLE_NUM_ENTRIES] ints (and
    of at most [INT32_MAX / STYLE_NUM_ENTRIES]), a pinned buffer and a bag
    whose entries all resolve, [NativeGetResourceArray] returns the entry
    count; the stride of each entry holds the type, data, Java cookie,
    resource id, flags and density of its resolved value ([@null]
    normalized), and the array is unchanged from [entry_count *
    STYLE_NUM_ENTRIES] on. *)
Theorem NativeGetResourceArray_fills (env : JNIEnv) (ptr resid : Z)
  (out_data : list Z) (bag : ResolvedBag) :
  style_layout_dense ->
  GetBag (AssetManagerFromLong ptr) (to_uint32 resid) = Some bag ->
  critical env 0 = true ->
  Forall (fun e => is_Some (ResolveReference (AssetManagerFromLong ptr)
                              (SelectedValue_of_entry bag e))) (entries bag) ->
  entry_count bag * STYLE_NUM_ENTRIES <= Z.of_nat (length out_data) ->
  Z.of_nat (length out_data) * STYLE_NUM_ENTRIES <= INT32_MAX ->
  exists out,
    NativeGetResourceArray env ptr resid out_data = Return (entry_count bag, out)
    /\ length out = length out_data
    /\ (forall (i : nat) e attr_value,
          entries bag !! i = Some e ->
          ResolveReference (AssetManagerFromLong ptr) (SelectedValue_of_entry bag e)
            = Some attr_value ->
          stride_holds out (Z.of_nat i * STYLE_NUM_ENTRIES)
            (null_normalize attr_value))
    /\ (forall j : nat,
          entry_count bag * STYLE_NUM_ENTRIES <= Z.of_nat j ->
          out !! j = out_data !! j).
Proof.
  intros Hdense Hbag Hpin Hres Hfit Hmax.
  pose proof Hdense as (R1 & _).
  destruct (array_guard_passes (entry_count bag) (Z.of_nat (length out_data)))
    as [Hn Hguard]; [lia|unfold entry_count; lia|done|done|].
  destruct (write_entries_dense (AssetManagerFromLong ptr) bag (entries bag)
              Hdense 0 out_data) as (out & Hw & Hout & Hslots);
    [lia|unfold entry_count in Hfit; lia|done|].
  exists out. unfold NativeGetResourceArray. rewrite Hbag. cbn zeta.
  destruct (decide _) as [Hgt|_]; [contradiction|].
  rewrite Hpin, Hw, Hn. cbn.
  split; [done|]. split; [eapply write_entries_length; by left|]. split.
  - intros i e v Hi Hv. specialize (Hslots i e v Hi Hv).
    by replace (0 + Z.of_nat i * STYLE_NUM_ENTRIES)
      with (Z.of_nat i * STYLE_NUM_ENTRIES) in Hslots by lia.
  - intros j Hj. specialize (Hout (Z.of_nat j) ltac:(lia)).
    rewrite Nat2Z.id in Hout. apply Hout. right. unfold entry_count in Hj. lia.
Qed.

(** The count [NativeGetResourceArraySize] reports is the count
    [NativeGetResourceArray] returns for an array of
    [count * STYLE_NUM_ENTRIES] ints, when the entries resolve. *)
Theorem array_size_then_array (env : JNIEnv) (ptr resid : Z) (bag : ResolvedBag) :
  style_layout_dense ->
  GetBag (AssetManagerFromLong ptr) (to_uint32 resid) = Some bag ->
  critical env 0 = true ->
  Forall (fun e => is_Some (ResolveReference (AssetManagerFromLong ptr)
                              (SelectedValue_of_entry bag e))) (entries bag) ->
  entry_count bag * STYLE_NUM_ENTRIES * STYLE_NUM_ENTRIES <= INT32_MAX ->
  let count := NativeGetResourceArraySize ptr resid in
  count = entry_count bag
  /\ exists out,
      NativeGetResourceArray env ptr resid
        (replicate (Z.to_nat (count * STYLE_NUM_ENTRIES)) 0) = Return (count, out).
Proof.
  intros Hdense Hbag Hpin Hres Hmax. pose proof Hdense as (R1 & _).
  assert (Hn : 0 <= entry_count bag) by (unfold entry_count; lia).
  assert (Hcount : NativeGetResourceArraySize ptr resid = entry_count bag).
  { unfold NativeGetResourceArraySize. rewrite Hbag.
    apply to_jint_small. unfold INT32_MIN, INT32_MAX in *. nia. }
  cbn zeta. rewrite Hcount. split; [done|].
  set (out_data := replicate _ 0).
  assert (Hlen : Z.of_nat (length out_data) = entry_count bag * STYLE_NUM_ENTRIES).
  { unfold out_data. rewrite length_replicate. nia. }
  destruct (array_guard_passes (entry_count bag) (Z.of_nat (length out_data)))
    as [Hjint Hguard]; [lia|done|lia|lia|].
  destruct (write_entries_dense (AssetManagerFromLong ptr) bag (entries bag)
              Hdense 0 out_data) as (out & Hw & _);
    [lia|unfold entry_count in Hlen; lia|done|].
  exists out. unfold NativeGetResourceArray. rewrite Hbag. cbn zeta.
  destruct (decide _) as [Hgt|_]; [contradiction|].
  by rewrite Hpin, Hw, Hjint.
Qed.

End MoreBagTable.

(** ** Arrays the binding allocates *)

Lemma to_jint_nonneg x : 0 <= x < 2 ^ 32 -> 0 <= to_jint x -> to_jint x = x.
Proof.
  unfold to_jint. intros Hx Hnn.
  destruct (decide (x < 2 ^ 31)) as [Hlt|Hge].
  - rewrite Z.mod_small in * by lia. lia.
  - exfalso. revert Hnn.
    replace (x + 2 ^ 31) with ((x - 2 ^ 31) + 1 * 2 ^ 32) by lia.
    rewrite Z_mod_plus_full, Z.mod_small by lia. lia.
Qed.

Lemma NewIntArray_Some env len array :
  NewIntArray env len = Some array ->
  0 <= len /\ array = replicate (Z.to_nat len) 0.
Proof.
  unfold NewIntArray. destruct (new_array env); cbn; [|discriminate].
  case_bool_decide; [|discriminate]. by intros [= <-].
Qed.

Lemma NewIntArray_None env len :
  NewIntArray env len = None -> new_array env = false \/ len < 0.
Proof.
  unfold NewIntArray. destruct (new_array env); cbn; [|by left].
  case_bool_decide; [discriminate|]. right. lia.
Qed.

Lemma find_finds {A} (f : A -> bool) (l : list A) (x : A) :
  In x l -> f x = true -> exists y, List.find f l = Some y /\ f y = true.
Proof.
  intros Hin Hfx. destruct (List.find f l) as [y|] eqn:Hfind.
  - exists y. split; [done|]. by apply find_some in Hfind as [_ ?].
  - pose proof (find_none f l Hfind x Hin). congruence.
Qed.

Section Arrays.
Context `{AndroidFw} `{ResValueTypes} `{Engine}.

Lemma write_keys_spec es : forall (i : Z) (array : list Z),
  0 <= i -> i + Z.of_nat (length es) <= Z.of_nat (length array) ->
  exists out,
    write_keys es i array = Some out
    /\ length out = length array
    /\ (forall j, 0 <= j < i -> out !! Z.to_nat j = array !! Z.to_nat j)
    /\ (forall (k : nat) e, es !! k = Some e ->
          out !! Z.to_nat (i + Z.of_nat k) = Some (to_jint (key e))).
Proof.
  induction es as [|e0 rest IH]; intros i array Hi Hfit; cbn.
  - exists array. split; [done|]. split; [done|]. split; [done|].
    intros k e Hk. by destruct k.
  - cbn [length] in Hfit. rewrite store_in_range by lia.
    destruct (IH (i + 1) (<[Z.to_nat i := to_jint (key e0)]> array))
      as (out & Hw & Hlen & Hbefore & Hkeys);
      [lia|rewrite length_insert; lia|].
    exists out. split; [done|]. split; [by rewrite Hlen, length_insert|]. split.
    + intros j Hj. rewrite Hbefore by lia. apply list_lookup_insert_ne. lia.
    + intros [|k] e Hk; cbn in Hk.
      * injection Hk as <-. replace (i + Z.of_nat 0) with i by lia.
        rewrite Hbefore by lia. apply list_lookup_insert_eq. lia.
      * replace (i + Z.of_nat (S k)) with (i + 1 + Z.of_nat k) by lia.
        by apply Hkeys.
Qed.

(** For a bag found (its entry count a 32-bit unsigned number),
    [NativeGetStyleAttributes] returns the keys of the bag in merge order or
    fails to allocate; it never stores outside the array. Each key it
    returns, handed back to [NativeGetResourceBagValue], finds an entry. *)
Theorem NativeGetStyleAttributes_keys (env : JNIEnv) (ptr resid : Z)
  (bag : ResolvedBag) :
  GetBag (AssetManagerFromLong ptr) (to_uint32 resid) = Some bag ->
  entry_count bag < 2 ^ 32 ->
  match NativeGetStyleAttributes env ptr resid with
  | ArrayReturned array =>
      array = map (fun e => to_jint (key e)) (entries bag)
      /\ (Forall (fun e => 0 <= key e < 2 ^ 32) (entries bag) ->
          forall k, k ∈ array ->
            exists e, find_last_entry k bag = Some e /\ key e = to_uint32 k)
  | NullAllocation => new_array env = false \/ INT32_MAX < entry_count bag
  | NullReturned | ArrayOverrun => False
  end.
Proof.
  intros Hbag Hcount. unfold NativeGetStyleAttributes. rewrite Hbag.
  assert (Hn : 0 <= entry_count bag) by (unfold entry_count; lia).
  destruct (NewIntArray env _) as [array|] eqn:Hnew.
  - apply NewIntArray_Some in Hnew as [Hnn ->].
    rewrite to_jint_nonneg by lia.
    destruct (write_keys_spec (entries bag) 0 (replicate (Z.to_nat (entry_count bag)) 0))
      as (out & Hw & Hlen & _ & Hkeys);
      [lia|rewrite length_replicate; unfold entry_count; lia|].
    rewrite Hw. rewrite length_replicate in Hlen. unfold entry_count in Hlen.
    rewrite Nat2Z.id in Hlen.
    assert (Hout : out = map (fun e => to_jint (key e)) (entries bag)).
    { apply (list_eq_same_length _ _ (length (entries bag)));
        [by rewrite length_map|done|].
      intros i x y Hi Hx Hy.
      rewrite list_lookup_fmap in Hy.
      destruct (entries bag !! i) as [e|] eqn:He; [|discriminate].
      injection Hy as <-. specialize (Hkeys i e He).
      replace (0 + Z.of_nat i) with (Z.of_nat i) in Hkeys by lia.
      rewrite Nat2Z.id in Hkeys. congruence. }
    split; [done|]. intros Hkeys32 k Hk. rewrite Hout in Hk.
    apply list_elem_of_fmap in Hk as (e & -> & He).
    rewrite Forall_forall in Hkeys32. specialize (Hkeys32 e He).
    unfold find_last_entry.
    destruct (find_finds (fun e0 => bool_decide (key e0 = to_uint32 (to_jint (key e))))
                (rev (entries bag)) e) as (y & Hfind & Hy).
    + apply in_rev. rewrite rev_involutive. by apply list_elem_of_In.
    + apply bool_decide_eq_true_2. by rewrite to_uint32_to_jint.
    + exists y. split; [done|]. by apply bool_decide_eq_true_1 in Hy.
  - apply NewIntArray_None in Hnew as [Hoom|Hneg]; [by left|]. right.
    destruct (decide (entry_count bag <= INT32_MAX)) as [Hsmall|]; [|lia].
    rewrite to_jint_small in Hneg by (unfold INT32_MIN, INT32_MAX in *; lia). lia.
Qed.

Lemma write_ints_spec assetmanager bag es : forall (i : Z) (buffer : list Z),
  0 <= i -> i + Z.of_nat (length es) <= Z.of_nat (length buffer) ->
  match write_ints assetmanager bag es i buffer with
  | Written out =>
      length out = length buffer
      /\ (forall j, 0 <= j < i -> out !! Z.to_nat j = buffer !! Z.to_nat j)
      /\ (forall (k : nat) e attr_value,
            es !! k = Some e ->
            ResolveReference assetmanager (SelectedValue_of_entry bag e)
              = Some attr_value ->
            out !! Z.to_nat (i + Z.of_nat k)
            = if is_int_type attr_value then Some (to_jint (data attr_value))
              else buffer !! Z.to_nat (i + Z.of_nat k))
  | ResolveFailed _ =>
      Exists (fun e => ResolveReference assetmanager
                         (SelectedValue_of_entry bag e) = None) es
  | Overrun => False
  end.
Proof.
  induction es as [|e0 rest IH]; intros i buffer Hi Hfit; cbn.
  - split; [done|]. split; [done|]. intros k e v Hk. by destruct k.
  - cbn [length] in Hfit.
    destruct (ResolveReference assetmanager (SelectedValue_of_entry bag e0))
      as [v0|] eqn:Hv0; [|by left].
    destruct (is_int_type v0) eqn:Hint.
    + rewrite store_in_range by lia.
      specialize (IH (i + 1) (<[Z.to_nat i := to_jint (data v0)]> buffer)
                    ltac:(lia)).
      rewrite length_insert in IH. specialize (IH ltac:(lia)).
      destruct (write_ints _ _ rest _ _) as [out|out|]; [|by right|done].
      destruct IH as (Hlen & Hbefore & Hslots).
      split; [done|]. split.
      * intros j Hj. rewrite Hbefore by lia. apply list_lookup_insert_ne. lia.
      * intros [|k] e v Hk Hv; cbn in Hk.
        -- injection Hk as <-. rewrite Hv0 in Hv. injection Hv as <-.
           rewrite Hint. replace (i + Z.of_nat 0) with i by lia.
           rewrite Hbefore by lia. apply list_lookup_insert_eq. lia.
        -- replace (i + Z.of_nat (S k)) with (i + 1 + Z.of_nat k) by lia.
           rewrite (Hslots k e v Hk Hv).
           destruct (is_int_type v); [done|].
           apply list_lookup_insert_ne. lia.
    + specialize (IH (i + 1) buffer ltac:(lia) ltac:(lia)).
      destruct (write_ints _ _ rest _ _) as [out|out|]; [|by right|done].
      destruct IH as (Hlen & Hbefore & Hslots).
      split; [done|]. split.
      * intros j Hj. apply Hbefore. lia.
      * intros [|k] e v Hk Hv; cbn in Hk.
        -- injection Hk as <-. rewrite Hv0 in Hv. injection Hv as <-.
           rewrite Hint. replace (i + Z.of_nat 0) with i by lia.
           apply Hbefore. lia.
        -- replace (i + Z.of_nat (S k)) with (i + 1 + Z.of_nat k) by lia.
           exact (Hslots k e v Hk Hv).
Qed.

(** For a bag found, [NativeGetResourceIntArray] returns an array with one
    element per entry, the data of the entries whose resolved type is an int
    type and 0 for the others; it returns null when an entry does not
    resolve, the buffer cannot be pinned or the array cannot be allocated,
    and never stores outside the array. *)
Theorem NativeGetResourceIntArray_elements (env : JNIEnv) (ptr resid : Z)
  (bag : ResolvedBag) :
  GetBag (AssetManagerFromLong ptr) (to_uint32 resid) = Some bag ->
  entry_count bag < 2 ^ 32 ->
  match NativeGetResourceIntArray env ptr resid with
  | ArrayReturned array =>
      length array = length (entries bag)
      /\ (forall (i : nat) e attr_value,
            entries bag !! i = Some e ->
            ResolveReference (AssetManagerFromLong ptr)
              (SelectedValue_of_entry bag e) = Some attr_value ->
            array !! i
            = Some (if is_int_type attr_value then to_jint (data attr_value)
                    else 0))
  | NullReturned =>
      critical env 0 = false
      \/ Exists (fun e => ResolveReference (AssetManagerFromLong ptr)
                            (SelectedValue_of_entry bag e) = None) (entries bag)
  | NullAllocation => new_array env = false \/ INT32_MAX < entry_count bag
  | ArrayOverrun => False
  end.
Proof.
  intros Hbag Hcount. unfold NativeGetResourceIntArray. rewrite Hbag. cbn zeta.
  assert (Hn : 0 <= entry_count bag) by (unfold entry_count; lia).
  destruct (NewIntArray env _) as [array|] eqn:Hnew.
  - apply NewIntArray_Some in Hnew as [Hnn ->].
    rewrite to_jint_nonneg by lia.
    destruct (critical env 0); cbn; [|by left].
    pose proof (write_ints_spec (AssetManagerFromLong ptr) bag (entries bag) 0
                  (replicate (Z.to_nat (entry_count bag)) 0)) as Hspec.
    rewrite length_replicate in Hspec.
    specialize (Hspec ltac:(lia) ltac:(unfold entry_count; lia)).
    destruct (write_ints _ _ _ _ _) as [out|out|]; [|by right|done].
    destruct Hspec as (Hlen & _ & Hslots).
    split; [unfold entry_count in Hlen; by rewrite Nat2Z.id in Hlen|].
    intros i e v Hi Hv. specialize (Hslots i e v Hi Hv).
    replace (0 + Z.of_nat i) with (Z.of_nat i) in Hslots by lia.
    rewrite Nat2Z.id in Hslots. rewrite Hslots.
    destruct (is_int_type v); [done|].
    apply lookup_replicate_2. apply lookup_lt_Some in Hi.
    unfold entry_count. lia.
  - apply NewIntArray_None in Hnew as [Hoom|Hneg]; [by left|]. right.
    destruct (decide (entry_count bag <= INT32_MAX)) as [Hsmall|]; [|lia].
    rewrite to_jint_small in Hneg by (unfold INT32_MIN, INT32_MAX in *; lia). lia.
Qed.

End Arrays.

Section StringInfo.
Context `{AndroidFw} `{ResValueTypes} `{Engine}.

Lemma write_string_info_spec assetmanager bag es : forall (i : Z) (buffer : list Z),
  0 <= i -> (i + Z.of_nat (length es)) * 2 <= Z.of_nat (length buffer) ->
  match write_string_info assetmanager bag es i buffer with
  | Written out =>
      length out = length buffer
      /\ (forall j, 0 <= j < i * 2 -> out !! Z.to_nat j = buffer !! Z.to_nat j)
      /\ (forall (k : nat) e attr_value,
            es !! k = Some e ->
            ResolveReference assetmanager (SelectedValue_of_entry bag e)
              = Some attr_value ->
            out !! Z.to_nat ((i + Z.of_nat k) * 2)
              = Some (ApkAssetsCookieToJavaCookie (cookie attr_value))
            /\ out !! Z.to_nat ((i + Z.of_nat k) * 2 + 1)
              = Some (if decide (type attr_value = TYPE_STRING)
                      then to_jint (data attr_value) else -1))
  | ResolveFailed _ =>
      Exists (fun e => ResolveReference assetmanager
                         (SelectedValue_of_entry bag e) = None) es
  | Overrun => False
  end.
Proof.
  induction es as [|e0 rest IH]; intros i buffer Hi Hfit; cbn.
  - split; [done|]. split; [done|]. intros k e v Hk. by destruct k.
  - cbn [length] in Hfit.
    destruct (ResolveReference assetmanager (SelectedValue_of_entry bag e0))
      as [v0|] eqn:Hv0; [|by left].
    rewrite store_in_range by lia.
    rewrite store_in_range by (rewrite length_insert; lia).
    set (b2 := <[Z.to_nat (i * 2 + 1) := _]> (<[Z.to_nat (i * 2) := _]> buffer)).
    assert (Hb2 : length b2 = length buffer)
      by (unfold b2; by rewrite !length_insert).
    specialize (IH (i + 1) b2 ltac:(lia)). rewrite Hb2 in IH.
    specialize (IH ltac:(lia)).
    destruct (write_string_info _ _ rest _ _) as [out|out|]; [|by right|done].
    destruct IH as (Hlen & Hbefore & Hslots).
    split; [done|]. split.
    + intros j Hj. rewrite Hbefore by lia. unfold b2.
      by rewrite !list_lookup_insert_ne by lia.
    + intros [|k] e v Hk Hv; cbn in Hk.
      * injection Hk as <-. rewrite Hv0 in Hv. injection Hv as <-.
        replace (i + Z.of_nat 0) with i by lia.
        rewrite !Hbefore by lia. unfold b2. split.
        -- rewrite list_lookup_insert_ne by lia.
           apply list_lookup_insert_eq. lia.
        -- apply list_lookup_insert_eq. rewrite length_insert. lia.
      * replace (i + Z.of_nat (S k)) with (i + 1 + Z.of_nat k) by lia.
        exact (Hslots k e v Hk Hv).
Qed.

(** For a bag found with fewer than [2^31] entries,
    [NativeGetResourceStringArrayInfo] returns two ints per entry: the Java
    cookie of its resolved value, then the string index when the value is a
    string and -1 when it is not; it returns null when an entry does not
    resolve, the buffer cannot be pinned or the array cannot be allocated,
    and never stores outside the array. *)
Theorem NativeGetResourceStringArrayInfo_pairs (env : JNIEnv) (ptr resid : Z)
  (bag : ResolvedBag) :
  GetBag (AssetManagerFromLong ptr) (to_uint32 resid) = Some bag ->
  entry_count bag < 2 ^ 31 ->
  match NativeGetResourceStringArrayInfo env ptr resid with
  | ArrayReturned array =>
      length array = (2 * length (entries bag))%nat
      /\ (forall (i : nat) e attr_value,
            entries bag !! i = Some e ->
            ResolveReference (AssetManagerFromLong ptr)
              (SelectedValue_of_entry bag e) = Some attr_value ->
            array !! (2 * i)%nat
              = Some (ApkAssetsCookieToJavaCookie (cookie attr_value))
            /\ array !! (2 * i + 1)%nat
              = Some (if decide (type attr_value = TYPE_STRING)
                      then to_jint (data attr_value) else -1))
  | NullReturned =>
      critical env 0 = false
      \/ Exists (fun e => ResolveReference (AssetManagerFromLong ptr)
                            (SelectedValue_of_entry bag e) = None) (entries bag)
  | NullAllocation => new_array env = false \/ INT32_MAX < 2 * entry_count bag
  | ArrayOverrun => False
  end.
Proof.
  intros Hbag Hcount. unfold NativeGetResourceStringArrayInfo.
  rewrite Hbag. cbn zeta.
  assert (Hn : 0 <= entry_count bag) by (unfold entry_count; lia).
  assert (Hu : to_uint32 (entry_count bag * 2) = entry_count bag * 2)
    by (apply Z.mod_small; lia).
  rewrite Hu.
  destruct (NewIntArray env _) as [array|] eqn:Hnew.
  - apply NewIntArray_Some in Hnew as [Hnn ->].
    rewrite to_jint_nonneg by lia.
    destruct (critical env 0); cbn; [|by left].
    pose proof (write_string_info_spec (AssetManagerFromLong ptr) bag
                  (entries bag) 0
                  (replicate (Z.to_nat (entry_count bag * 2)) 0)) as Hspec.
    rewrite length_replicate in Hspec.
    specialize (Hspec ltac:(lia) ltac:(unfold entry_count; lia)).
    destruct (write_string_info _ _ _ _ _) as [out|out|]; [|by right|done].
    destruct Hspec as (Hlen & _ & Hslots).
    split; [unfold entry_count in Hlen; lia|].
    intros i e v Hi Hv. destruct (Hslots i e v Hi Hv) as [Hco Hst].
    replace (Z.to_nat ((0 + Z.of_nat i) * 2)) with (2 * i)%nat in Hco by lia.
    replace (Z.to_nat ((0 + Z.of_nat i) * 2 + 1)) with (2 * i + 1)%nat in Hst by lia.
    done.
  - apply NewIntArray_None in Hnew as [Hoom|Hneg]; [by left|]. right.
    destruct (decide (entry_count bag * 2 <= INT32_MAX)) as [Hsmall|]; [|lia].
    rewrite to_jint_small in Hneg by (unfold INT32_MIN, INT32_MAX in *; lia). lia.
Qed.

End StringInfo.

(** ** Asset streams *)

Section MoreAssets.
Context `{AssetStream}.

(** [NativeAssetReadChar] returns -1 or a byte value from 0 to 255, so
    that the end of the asset cannot be mistaken for a byte. *)
Theorem NativeAssetReadChar_range (asset_ptr : Z) :
  NativeAssetReadChar asset_ptr = -1
  \/ 0 <= NativeAssetReadChar asset_ptr <= 255.
Proof.
  unfold NativeAssetReadChar.
  destruct (Asset_read asset_ptr [0]) as [res bytes].
  destruct (decide (res = 1)); [right|by left].
  pose proof (Z.mod_pos_bound (List.nth 0 bytes 0) (2 ^ 8) ltac:(lia)) as Hb.
  unfold to_uint8 at 1 2.
  rewrite to_jint_small by (unfold INT32_MIN, INT32_MAX; lia). lia.
Qed.

(** For a Java byte array and an asset that honours the count it is given
    (it leaves as many bytes as it was handed and reports at most that
    many), [NativeAssetRead] keeps the length of the array and changes no
    byte outside [offset, offset + len); it raises IndexOutOfBoundsException
    or IOException or nothing, returns -1 whenever it raises, and returns 0
    only for [len = 0]. *)
Theorem NativeAssetRead_window (env : JNIEnv) (asset_ptr : Z)
  (java_buffer : list Z) (offset len : Z) :
  Z.of_nat (length java_buffer) <= INT32_MAX ->
  (forall window, length (Asset_read asset_ptr window).2 = length window) ->
  (forall window, (Asset_read asset_ptr window).1 <= Z.of_nat (length window)) ->
  let inside (r : Z * list Z) :=
    length r.2 = length java_buffer
    /\ (forall j : nat, Z.of_nat j < offset \/ offset + len <= Z.of_nat j ->
          r.2 !! j = java_buffer !! j)
    /\ (r.1 = 0 -> len = 0) in
  match NativeAssetRead env asset_ptr java_buffer offset len with
  | Return r => inside r
  | Throw e r =>
      (e = IndexOutOfBoundsException "" \/ e = IOException)
      /\ r.1 = -1 /\ inside r
  | Abort | Fault => False
  end.
Proof.
  intros Hmax Hkeep Hcount inside. unfold NativeAssetRead.
  destruct (decide (len = 0)) as [->|Hlen]; [by repeat split|].
  cbn zeta. repeat case_bool_decide; cbn [orb];
    try (split; [by left|]; repeat split; (done || lia)).
  destruct (negb (critical env 0)); [repeat split; (done || lia)|].
  assert (Hsub : to_jint (Z.of_nat (length java_buffer) - len)
                 = Z.of_nat (length java_buffer) - len)
    by (apply to_jint_small; unfold INT32_MIN, INT32_MAX in *; lia).
  rewrite Hsub in *.
  set (window := take (Z.to_nat len) (drop (Z.to_nat offset) java_buffer)).
  specialize (Hkeep window). specialize (Hcount window).
  assert (Hwin : length window = Z.to_nat len)
    by (unfold window; rewrite length_take, length_drop; lia).
  destruct (Asset_read asset_ptr window) as [res window']. cbn in Hkeep, Hcount.
  assert (Hin : inside (if decide (res > 0) then to_jint res else -1,
                        take (Z.to_nat offset) java_buffer ++ window'
                        ++ drop (Z.to_nat offset + Z.to_nat len) java_buffer)
                /\ inside (-1, take (Z.to_nat offset) java_buffer ++ window'
                           ++ drop (Z.to_nat offset + Z.to_nat len) java_buffer)).
  { assert (Hlength : length (take (Z.to_nat offset) java_buffer ++ window'
                        ++ drop (Z.to_nat offset + Z.to_nat len) java_buffer)
                      = length java_buffer)
      by (rewrite !length_app, length_take, length_drop; lia).
    assert (Houtside : forall j : nat,
              Z.of_nat j < offset \/ offset + len <= Z.of_nat j ->
              (take (Z.to_nat offset) java_buffer ++ window'
               ++ drop (Z.to_nat offset + Z.to_nat len) java_buffer) !! j
              = java_buffer !! j).
    { intros j [Hj|Hj].
      - rewrite lookup_app_l by (rewrite length_take; lia).
        apply lookup_take_lt. lia.
      - rewrite lookup_app_r by (rewrite length_take; lia).
        rewrite lookup_app_r by (rewrite length_take; lia).
        rewrite lookup_drop. f_equal. rewrite length_take. lia. }
    split; (split; [exact Hlength|split; [exact Houtside|cbn]]); [|lia].
    destruct (decide (res > 0)); [|lia].
    rewrite to_jint_small by (unfold INT32_MIN, INT32_MAX in *; lia). lia. }
  destruct Hin as [Hret Hthrow].
  destruct (decide (res < 0)); [|exact Hret].
  split; [by right|]. split; [done|exact Hthrow].
Qed.

End MoreAssets.

(** ** Source lists, assets, configurations *)

Lemma collect_apk_assets_open (ptrs : list Z) (rest : list (option Z)) :
  Forall (fun p => p <> 0) ptrs ->
  forall (i : nat) (acc : list Z),
    collect_apk_assets i ((Some <$> ptrs) ++ rest) acc
    = collect_apk_assets (i + length ptrs) rest (acc ++ ptrs).
Proof.
  induction 1 as [|p ptrs Hp _ IH]; intros i acc; cbn.
  - by rewrite Nat.add_0_r, app_nil_r.
  - destruct (decide (p = 0)); [contradiction|].
    rewrite IH, <- app_assoc. cbn. f_equal. lia.
Qed.

(** [NativeSetApkAssets] hands the engine the native pointers of the array,
    in order, when every element is an open [ApkAssets]; the first element
    that is null or closed stops it, with the exception for that index, and
    the engine is not called. *)
Theorem NativeSetApkAssets_validates (ptrs : list Z)
  (invalidate_caches preset : bool) :
  Forall (fun p => p <> 0) ptrs ->
  NativeSetApkAssets (Some <$> ptrs) invalidate_caches preset
  = (if preset then CalledPresetApkAssets ptrs
     else CalledSetApkAssets ptrs invalidate_caches)
  /\ (forall rest,
        NativeSetApkAssets ((Some <$> ptrs) ++ None :: rest)
          invalidate_caches preset = ApkAssetsNull (length ptrs))
  /\ (forall rest,
        NativeSetApkAssets ((Some <$> ptrs) ++ Some 0 :: rest)
          invalidate_caches preset = ApkAssetsClosed (length ptrs)).
Proof.
  intros Hopen. unfold NativeSetApkAssets. split; [|split].
  - rewrite <- (app_nil_r (Some <$> ptrs)).
    by rewrite collect_apk_assets_open.
  - intros rest. by rewrite collect_apk_assets_open.
  - intros rest. by rewrite collect_apk_assets_open.
Qed.

Section MoreResources.
Context `{AndroidFw} `{Engine} `{AttributeResolution} `{!AttributeRetrieval}.

(** With a path and one of the four access modes, [NativeOpenAsset] and
    [NativeOpenNonAsset] make exactly one call of the engine, with the path
    and the mode as given, and raise FileNotFoundException when it finds
    nothing. [NativeOpenNonAsset] searches every source for a Java cookie
    that is not positive and the source [jcookie - 1] for a positive one. *)
Theorem valid_access_mode_opens (ptr jcookie access_mode : Z) (path : string) :
  access_mode = ACCESS_UNKNOWN \/ access_mode = ACCESS_RANDOM
  \/ access_mode = ACCESS_STREAMING \/ access_mode = ACCESS_BUFFER ->
  let found (asset : option Z) : Outcome Z :=
    match asset with
    | Some a => Return a
    | None => Throw (FileNotFoundException path) 0
    end in
  NativeOpenAsset ptr (Some path) access_mode
  = ([CallOpen path access_mode],
     found (Open (AssetManagerFromLong ptr) path access_mode))
  /\ (jcookie <= 0 ->
      NativeOpenNonAsset ptr jcookie (Some path) access_mode
      = ([CallOpenNonAsset path None access_mode],
         found (OpenNonAsset (AssetManagerFromLong ptr) path None access_mode)))
  /\ (0 < jcookie <= INT32_MAX -> jcookie - 1 <> kInvalidCookie ->
      NativeOpenNonAsset ptr jcookie (Some path) access_mode
      = ([CallOpenNonAsset path (Some (jcookie - 1)) access_mode],
         found (OpenNonAsset (AssetManagerFromLong ptr) path
                  (Some (jcookie - 1)) access_mode))).
Proof.
  intros Hmode found.
  assert (Hok : bad_access_mode access_mode = false).
  { unfold bad_access_mode. apply andb_false_iff.
    destruct Hmode as [-> | [-> | [-> | ->]]];
      rewrite ?andb_false_iff, ?bool_decide_eq_false; tauto. }
  unfold NativeOpenAsset, NativeOpenNonAsset. rewrite Hok.
  split; [done|]. split.
  - intros Hj. unfold JavaCookieToApkAssetsCookie.
    destruct (decide (jcookie > 0)); [lia|].
    by destruct (decide (kInvalidCookie <> kInvalidCookie)).
  - intros Hj Hinv. unfold JavaCookieToApkAssetsCookie.
    destruct (decide (jcookie > 0)); [|lia].
    rewrite to_jint_small by (unfold INT32_MIN, INT32_MAX in *; lia).
    by destruct (decide (jcookie - 1 <> kInvalidCookie)).
Qed.

Lemma locale_configs_null configuration locales :
  None ∈ locales -> locale_configs configuration locales = None.
Proof.
  induction locales as [|[tag|] rest IH]; intros Hin; cbn.
  - by apply elem_of_nil in Hin.
  - apply elem_of_cons in Hin as [|Hin]; [done|]. by rewrite IH.
  - done.
Qed.

(** [NativeSetConfiguration] aborts exactly when [locales] has a null
    element; otherwise it hands the engine one configuration per locale, or
    a single one when there is no locale, with [force_refresh] as given and
    0 as default locale when [default_locale] is null. *)
Theorem NativeSetConfiguration_locales
  (mcc mnc : Z) (default_locale : option string)
  (locales : option (list (option string)))
  (orientation touchscreen density keyboard keyboard_hidden navigation
   screen_width screen_height smallest_screen_width_dp screen_width_dp
   screen_height_dp screen_layout ui_mode color_mode grammatical_gender
   major_version : Z) (force_refresh : bool) :
  let tags := default [] locales in
  match NativeSetConfiguration mcc mnc default_locale locales orientation
          touchscreen density keyboard keyboard_hidden navigation screen_width
          screen_height smallest_screen_width_dp screen_width_dp
          screen_height_dp screen_layout ui_mode color_mode grammatical_gender
          major_version force_refresh with
  | Return call =>
      (None ∉ tags)
      /\ length (configs call) = Nat.max 1 (length tags)
      /\ force_refresh_arg call = force_refresh
      /\ (default_locale = None -> default_locale_int call = 0)
  | Abort => None ∈ tags
  | Throw _ _ | Fault => False
  end.
Proof.
  unfold NativeSetConfiguration.
  set (configuration := Build_ResTable_config _ _ _ _ _ _ _ _ _ _ _ _ _ _ _ _ _ _ _ _ _).
  destruct locales as [[|l0 ls]|]; cbn -[locale_configs].
  - repeat split; [by intros ?%elem_of_nil|by intros ->].
  - pose proof (locale_configs_spec (fun _ => True) configuration (l0 :: ls)
                  (fun _ => I)) as Hspec.
    pose proof (locale_configs_null configuration (l0 :: ls)) as Hnull.
    destruct (locale_configs configuration (l0 :: ls)) as [cs|]; [|done].
    destruct Hspec as [_ Hlen]. cbn.
    repeat split; [|cbn in Hlen; lia|by intros ->].
    intros Hin. by specialize (Hnull Hin).
  - repeat split; [by intros ?%elem_of_nil|by intros ->].
Qed.

(** An indices array that is not longer than the attribute array is never
    handed to the engine: for every engine, [NativeResolveAttrs] and
    [NativeRetrieveAttributes] do with it exactly what they do with a null
    indices array (the engine is given no indices buffer, the fourth pin is
    not attempted), and the array comes back as the caller passed it. *)
Theorem short_indices_not_passed (env : JNIEnv) (ptr xml_parser_ptr : Z)
  (theme : Theme) (def_style_attr def_style_resid : Z)
  (java_values : option (list Z)) (java_attrs out_java_values : list Z)
  (indices : list Z) :
  (length indices <= length java_attrs)%nat ->
  NativeResolveAttrs env ptr theme def_style_attr def_style_resid java_values
    java_attrs out_java_values (Some indices)
  = returning_indices (Some indices)
      (NativeResolveAttrs env ptr theme def_style_attr def_style_resid
         java_values java_attrs out_java_values None)
  /\ NativeRetrieveAttributes env ptr xml_parser_ptr java_attrs out_java_values
       (Some indices)
    = returning_indices (Some indices)
        (NativeRetrieveAttributes env ptr xml_parser_ptr java_attrs
           out_java_values None).
Proof.
  intros Hshort.
  assert (Hpin : bool_decide (Z.of_nat (length indices)
                              > Z.of_nat (length java_attrs)) = false)
    by (apply bool_decide_eq_false_2; lia).
  split.
  - unfold NativeResolveAttrs. cbn zeta. rewrite Hpin.
    destruct (decide _); [done|].
    destruct (negb (critical env 0)); [done|].
    destruct (bool_decide (is_Some _) && negb (critical env 1)); [done|].
    destruct (negb (critical env 2)); [done|].
    cbn. unfold CHECK. by destruct (owns theme ptr).
  - unfold NativeRetrieveAttributes. cbn zeta. rewrite Hpin.
    destruct (decide _); [done|].
    destruct (negb (critical env 0)); [done|].
    by destruct (negb (critical env 1)).
Qed.

(** An output array with fewer than [attrs_len * STYLE_NUM_ENTRIES] ints
    (the product a [jint]) is refused by [NativeResolveAttrs] and
    [NativeRetrieveAttributes] before anything else happens: they raise
    IndexOutOfBoundsException, return false and leave the outputs alone,
    whatever the theme. *)
Theorem undersized_values_rejected (env : JNIEnv) (ptr xml_parser_ptr : Z)
  (theme : Theme) (def_style_attr def_style_resid : Z)
  (java_values : option (list Z)) (java_attrs out_java_values : list Z)
  (out_java_indices : option (list Z)) :
  Z.of_nat (length out_java_values)
    < Z.of_nat (length java_attrs) * STYLE_NUM_ENTRIES <= INT32_MAX ->
  let refused :=
    Throw (IndexOutOfBoundsException "outValues too small")
      (false, {| out_values := out_java_values;
                 out_indices := out_java_indices |}) in
  NativeResolveAttrs env ptr theme def_style_attr def_style_resid java_values
    java_attrs out_java_values out_java_indices = refused
  /\ NativeRetrieveAttributes env ptr xml_parser_ptr java_attrs out_java_values
       out_java_indices = refused.
Proof.
  intros Hsmall refused.
  unfold NativeResolveAttrs, NativeRetrieveAttributes. cbn zeta.
  rewrite to_jint_small by (unfold INT32_MIN, INT32_MAX in *; lia).
  by destruct (decide _) as [_|Hn]; [|lia].
Qed.

(** [NativeThemeCopy] aborts exactly when the source theme is not of the
    source context or, the two handles being different, the destination
    theme is not of the destination context; in every other case (so also
    for a destination theme of another context presented under the source
    handle) it copies. *)
Theorem NativeThemeCopy_aborts_iff (dst_ptr src_ptr : Z) (dst_theme src_theme : Theme) :
  (NativeThemeCopy dst_ptr dst_theme src_ptr src_theme = Abort
   <-> asset_manager_ src_theme <> src_ptr
       \/ (dst_ptr <> src_ptr /\ asset_manager_ dst_theme <> dst_ptr))
  /\ (NativeThemeCopy dst_ptr dst_theme src_ptr src_theme <> Abort ->
      NativeThemeCopy dst_ptr dst_theme src_ptr src_theme
      = Return (Theme_SetTo dst_theme src_theme)).
Proof.
  unfold NativeThemeCopy, CHECK, owns.
  destruct (decide (asset_manager_ src_theme = src_ptr)) as [Hs|Hs].
  - rewrite bool_decide_eq_true_2 by done.
    destruct (decide (dst_ptr <> src_ptr)) as [Hd|Hd].
    + destruct (decide (asset_manager_ dst_theme = dst_ptr)) as [Ho|Ho].
      * rewrite bool_decide_eq_true_2 by done. split; [|done].
        split; [done|]. intros [?|[_ ?]]; done.
      * rewrite bool_decide_eq_false_2 by done. split; [|done].
        split; [|done]. intros _. right. done.
    + split; [|done]. split; [done|]. intros [?|[? _]]; done.
  - rewrite bool_decide_eq_false_2 by done. split; [|done].
    split; [|done]. intros _. by left.
Qed.

(** [NativeThemeRebase] reads the first [style_count] elements of its two
    arrays and nothing after them; it aborts when [style_count] exceeds the
    length of the id array, and when the id array is null and
    [style_count] is not 0. *)
Theorem NativeThemeRebase_prefix (env : JNIEnv) (ptr : Z) (theme : Theme)
  (style_ids : list Z) (force : list bool) (style_count : Z) :
  0 <= style_count <= Z.of_nat (length style_ids) ->
  style_count <= Z.of_nat (length force) ->
  NativeThemeRebase env ptr theme (Some style_ids) (Some force) style_count
  = NativeThemeRebase env ptr theme
      (Some (take (Z.to_nat style_count) style_ids))
      (Some (take (Z.to_nat style_count) force)) style_count
  /\ (forall force' count',
        Z.of_nat (length style_ids) < count' ->
        NativeThemeRebase env ptr theme (Some style_ids) force' count' = Abort)
  /\ (forall force' count',
        count' <> 0 ->
        NativeThemeRebase env ptr theme None force' count' = Abort).
Proof.
  intros Hids Hforce. split; [|split].
  - unfold NativeThemeRebase, CHECK.
    rewrite !length_take.
    rewrite !bool_decide_eq_true_2 by (done || lia).
    destruct (critical env 0); cbn [negb andb]; [|done].
    destruct (decide (style_count < 0)); [done|].
    destruct (critical env 1); cbn [negb andb]; [|done].
    cbn [default].
    unfold id. by rewrite <- firstn_map, !take_take, !Nat.min_id.
  - intros force' count' Hlong. unfold NativeThemeRebase, CHECK.
    by rewrite bool_decide_eq_false_2 by lia.
  - intros force' count' Hnz. unfold NativeThemeRebase, CHECK.
    by rewrite bool_decide_eq_false_2.
Qed.

End MoreResources.

(* ===================================================================== *)
(** * The properties at the platform's constants *)
(* ===================================================================== *)

#[local] Existing Instance platform_headers.
#[local] Existing Instance demo_engine.
#[local] Existing Instance idle_resolution.



Lemma NativeGetResourceValue_unresolved_witness :
  NativeGetResourceValue 1 100 0 ∅ true = Return (-1, ∅).
Proof.
  apply (NativeGetResourceValue_unresolved_is_not_found 1 100 0 ∅ (value_of 1 100));
    reflexivity.
Defined.

Lemma bad_access_mode_witness :
  NativeOpenAsset 1 (Some "a.txt") 7
    = ([], Throw (IllegalArgumentException "Bad access mode") 0)
  /\ NativeOpenNonAsset 1 1 (Some "a.txt") 7
    = ([], Throw (IllegalArgumentException "Bad access mode") 0).
Proof.
  apply (bad_access_mode_rejected 1 1 7 (Some "a.txt")); cbn; lia.
Defined.

Lemma NativeGetResourceBagValue_last_match_witness :
  NativeGetResourceBagValue 1 200 1 ∅
    = Return (CopyValue (value_of 16 11) ∅)
  /\ NativeGetResourceBagValue 1 200 9 ∅ = Return (-1, ∅).
Proof.
  assert (Hbag : GetBag (AssetManagerFromLong 1) (to_uint32 200) = Some bag_200)
    by reflexivity.
  split.
  - destruct (NativeGetResourceBagValue_last_match 1 200 1 ∅ bag_200 Hbag)
      as [_ Hlast].
    apply (Hlast [entry_of 1 16 10; entry_of 2 1 0] (entry_of 1 16 11) []);
      [reflexivity|reflexivity|constructor].
  - destruct (NativeGetResourceBagValue_last_match 1 200 9 ∅ bag_200 Hbag)
      as [Hnone _].
    apply Hnone. repeat constructor; vm_compute; congruence.
Defined.

(** Bag 201 has an entry of key 5, the last (and only) one, but its value
    refers to a resource that refers to itself: the call answers -1 and
    copies nothing. *)
Lemma NativeGetResourceBagValue_unresolvable_entry :
  GetBag (AssetManagerFromLong 1) (to_uint32 201) = Some bag_201
  /\ entries bag_201 = [entry_of 5 1 100]
  /\ key (entry_of 5 1 100) = to_uint32 5
  /\ ResolveReference (AssetManagerFromLong 1)
       (SelectedValue_of_entry bag_201 (entry_of 5 1 100)) = None
  /\ NativeGetResourceBagValue 1 201 5 ∅ = Return (-1, ∅).
Proof. repeat split; reflexivity. Qed.

Lemma NativeGetResourceArray_null_normalized_witness :
  exists out,
    NativeGetResourceArray plain_env 1 200 (replicate 21 0) = Return (3, out)
    /\ out !! 7%nat = Some 0 /\ out !! 8%nat = Some 0
    /\ out !! 7%nat <> Some 1.
Proof.
  eexists. split; [vm_compute; reflexivity|].
  match goal with
  | |- ?out !! _ = _ /\ _ =>
      destruct (NativeGetResourceArray_null_normalized plain_env 1 200
                  (replicate 21 0) out bag_200 3 1 (entry_of 2 1 0) (value_of 1 0))
        as (Hty & Hda & Hne)
  end.
  - unfold style_layout_ok. cbn. lia.
  - reflexivity.
  - vm_compute. reflexivity.
  - lia.
  - reflexivity.
  - reflexivity.
  - reflexivity.
  - reflexivity.
  - split; [exact Hty|split; [exact Hda|]].
    apply Hne; cbn; lia.
Defined.

(** C2: bag 202 has one entry, so the flattened table needs
    [STYLE_NUM_ENTRIES] = 7 ints; handed an array of a single int,
    [NativeGetResourceArray] raises nothing (its guard compares the entry
    count with seven times the array length) and the loop stores past the
    end of the array. [NativeResolveAttrs], given the same sizes, refuses
    them. *)
Theorem NativeGetResourceArray_undersized_not_rejected :
  GetBag (AssetManagerFromLong 1) (to_uint32 202) = Some bag_202
  /\ entry_count bag_202 = 1
  /\ Z.of_nat (length [0]) < entry_count bag_202 * STYLE_NUM_ENTRIES
  /\ NativeGetResourceArray plain_env 1 202 [0] = Fault
  /\ NativeResolveAttrs plain_env 1 (NewTheme 1) 0 0 None [7] [0] None
     = Throw (IndexOutOfBoundsException "outValues too small")
             (false, {| out_values := [0]; out_indices := None |}).
Proof. repeat split; vm_compute; reflexivity. Qed.

Lemma theme_rebase_equivalence_witness :
  entries_ (Theme_Rebase (NewTheme 2) 1 (map to_uint32 [202; 200])
              [false; true] 2)
  = entries_ (apply_styles (NewTheme 1)
                (map as_engine_style [(202, false); (200, true)]))
  /\ exists applied rebased,
      apply_styles_native 1 (NativeThemeCreate 1) [(202, false); (200, true)]
        = Return applied
      /\ NativeThemeRebase plain_env 1 (NewTheme 2) (Some [202; 200])
           (Some [false; true]) 2 = Return rebased
      /\ entries_ applied = entries_ rebased
      /\ applied = rebased
      /\ rebase_log applied = map as_engine_style [(202, false); (200, true)]
      /\ Theme_Rebase applied 1 (rebase_log applied).*1 (rebase_log applied).*2
           (length (rebase_log applied)) = applied.
Proof.
  apply (theme_rebase_equivalence plain_env 1 (NewTheme 2)
           [(202, false); (200, true)]); reflexivity.
Defined.

Lemma theme_owner_checked_witness :
  NativeThemeDump 2 (NewTheme 1) = Abort
  /\ NativeThemeApplyStyle 2 (NewTheme 1) 202 false = Abort
  /\ NativeThemeCopy 2 (NewTheme 2) 2 (NewTheme 1) = Abort.
Proof.
  destruct (theme_owner_checked plain_env 2 (NewTheme 1))
    as (_ & _ & _ & _ & _ & Happly & _ & Hdump & Hcopy & _).
  - cbn. lia.
  - split; [exact Hdump|split; [apply Happly|apply Hcopy]].
Defined.

(** A theme of the first context, holding style 202 of that context, is
    presented to [NativeThemeRebase] under the handle of the second
    context: the call returns normally and the theme now holds the second
    context's value for attribute 7. *)
Lemma NativeThemeRebase_other_context :
  let theme := apply_styles (NewTheme 1) [(202, false)] in
  asset_manager_ theme <> 2
  /\ entries_ theme !! 7 = Some (value_of 16 1)
  /\ exists rebased,
      NativeThemeRebase plain_env 2 theme (Some [202]) (Some [false]) 1
        = Return rebased
      /\ asset_manager_ rebased = 2
      /\ entries_ rebased !! 7 = Some (value_of 16 2).
Proof.
  cbn zeta. split; [vm_compute; congruence|]. split; [reflexivity|].
  eexists. split; [reflexivity|]. split; reflexivity.
Qed.

(* ===================================================================== *)
(** * The further properties at the platform's constants *)
(* ===================================================================== *)

#[local] Existing Instance platform_types.
#[local] Existing Instance demo_stream.
#[local] Existing Instance idle_retrieval.

Lemma platform_layout_dense : style_layout_dense.
Proof.
  unfold style_layout_dense. cbn.
  repeat split; try lia.
  apply (bool_decide_unpack _). vm_compute. exact I.
Defined.

Lemma bag_200_resolves :
  Forall (fun e => is_Some (ResolveReference (AssetManagerFromLong 1)
                              (SelectedValue_of_entry bag_200 e)))
         (entries bag_200).
Proof. repeat constructor; by eexists. Defined.

Lemma java_cookie_round_trip_witness :
  JavaCookieToApkAssetsCookie 4 = 4 - 1
  /\ ApkAssetsCookieToJavaCookie (JavaCookieToApkAssetsCookie 4) = 4.
Proof.
  apply (java_cookie_round_trip 4); [unfold INT32_MAX; lia | cbn; lia].
Defined.

Lemma ApkAssetsCookieToJavaCookie_injective_witness :
  ApkAssetsCookieToJavaCookie 3 = ApkAssetsCookieToJavaCookie (2 + 1) /\ 3 = 2 + 1.
Proof.
  split; [reflexivity|].
  apply (ApkAssetsCookieToJavaCookie_injective 3 (2 + 1));
    (reflexivity || (cbn; lia) || (unfold INT32_MAX; lia)).
Defined.

Lemma NativeGetResourceArray_fills_witness :
  exists out,
    NativeGetResourceArray plain_env 1 200 (replicate 22 9)
      = Return (entry_count bag_200, out)
    /\ length out = 22%nat
    /\ stride_holds out 14 (value_of 16 11)
    /\ out !! 21%nat = Some 9.
Proof.
  destruct (NativeGetResourceArray_fills plain_env 1 200 (replicate 22 9) bag_200)
    as (out & Hrun & Hlen & Hslots & Htail).
  - exact platform_layout_dense.
  - reflexivity.
  - reflexivity.
  - exact bag_200_resolves.
  - vm_compute. discriminate.
  - vm_compute. discriminate.
  - exists out. split; [exact Hrun|]. split; [exact Hlen|]. split.
    + exact (Hslots 2%nat (entry_of 1 16 11) (value_of 16 11) eq_refl eq_refl).
    + rewrite (Htail 21%nat); [reflexivity|vm_compute; discriminate].
Defined.

Lemma array_size_then_array_witness :
  NativeGetResourceArraySize 1 200 = entry_count bag_200
  /\ exists out,
      NativeGetResourceArray plain_env 1 200
        (replicate (Z.to_nat (NativeGetResourceArraySize 1 200 * STYLE_NUM_ENTRIES)) 0)
      = Return (NativeGetResourceArraySize 1 200, out).
Proof.
  apply (array_size_then_array plain_env 1 200 bag_200).
  - exact platform_layout_dense.
  - reflexivity.
  - reflexivity.
  - exact bag_200_resolves.
  - vm_compute. discriminate.
Defined.

Lemma NativeGetStyleAttributes_keys_witness :
  NativeGetStyleAttributes plain_env 1 200 = ArrayReturned [1; 2; 1]
  /\ forall k, k ∈ [1; 2; 1] ->
       exists e, find_last_entry k bag_200 = Some e /\ key e = to_uint32 k.
Proof.
  assert (Hrun : NativeGetStyleAttributes plain_env 1 200 = ArrayReturned [1; 2; 1])
    by reflexivity.
  split; [exact Hrun|].
  pose proof (NativeGetStyleAttributes_keys plain_env 1 200 bag_200) as Hkeys.
  rewrite Hrun in Hkeys.
  destruct Hkeys as [_ Hfound]; [reflexivity|vm_compute; reflexivity|].
  apply Hfound. repeat constructor; vm_compute; discriminate.
Defined.

Lemma NativeGetResourceIntArray_elements_witness :
  NativeGetResourceIntArray plain_env 1 200 = ArrayReturned [10; 0; 11]
  /\ [10; 0; 11] !! 2%nat = Some 11.
Proof.
  assert (Hrun : NativeGetResourceIntArray plain_env 1 200 = ArrayReturned [10; 0; 11])
    by reflexivity.
  split; [exact Hrun|].
  pose proof (NativeGetResourceIntArray_elements plain_env 1 200 bag_200) as Hel.
  rewrite Hrun in Hel.
  destruct Hel as [_ Hslots]; [reflexivity|vm_compute; reflexivity|].
  exact (Hslots 2%nat (entry_of 1 16 11) (value_of 16 11) eq_refl eq_refl).
Defined.

Lemma NativeGetResourceStringArrayInfo_pairs_witness :
  NativeGetResourceStringArrayInfo plain_env 1 200
    = ArrayReturned [1; -1; 1; -1; 1; -1]
  /\ [1; -1; 1; -1; 1; -1] !! 4%nat = Some 1
  /\ [1; -1; 1; -1; 1; -1] !! 5%nat = Some (-1).
Proof.
  assert (Hrun : NativeGetResourceStringArrayInfo plain_env 1 200
                 = ArrayReturned [1; -1; 1; -1; 1; -1]) by reflexivity.
  split; [exact Hrun|].
  pose proof (NativeGetResourceStringArrayInfo_pairs plain_env 1 200 bag_200) as Hp.
  rewrite Hrun in Hp.
  destruct Hp as [_ Hslots]; [reflexivity|vm_compute; reflexivity|].
  exact (Hslots 2%nat (entry_of 1 16 11) (value_of 16 11) eq_refl eq_refl).
Defined.

Lemma NativeAssetRead_window_witness :
  NativeAssetRead plain_env 1 [1; 2; 3; 4; 5] 1 2 = Return (2, [1; 65; 65; 4; 5])
  /\ length [1; 65; 65; 4; 5] = length [1; 2; 3; 4; 5]
  /\ [1; 65; 65; 4; 5] !! 3%nat = [1; 2; 3; 4; 5] !! 3%nat.
Proof.
  assert (Hrun : NativeAssetRead plain_env 1 [1; 2; 3; 4; 5] 1 2
                 = Return (2, [1; 65; 65; 4; 5])) by reflexivity.
  split; [exact Hrun|].
  pose proof (NativeAssetRead_window plain_env 1 [1; 2; 3; 4; 5] 1 2) as Hw.
  cbn zeta in Hw. rewrite Hrun in Hw.
  destruct Hw as (Hlen & Hout & _).
  - vm_compute. discriminate.
  - intros window. cbn. apply length_map.
  - intros window. apply Z.le_refl.
  - split; [exact Hlen|]. apply Hout. right. cbn. lia.
Defined.

Lemma NativeSetApkAssets_validates_witness :
  NativeSetApkAssets (Some <$> [7; 8]) true false = CalledSetApkAssets [7; 8] true
  /\ (forall rest,
        NativeSetApkAssets ((Some <$> [7; 8]) ++ None :: rest) true false
        = ApkAssetsNull 2)
  /\ (forall rest,
        NativeSetApkAssets ((Some <$> [7; 8]) ++ Some 0 :: rest) true false
        = ApkAssetsClosed 2).
Proof.
  apply (NativeSetApkAssets_validates [7; 8] true false).
  repeat constructor; lia.
Defined.

Lemma valid_access_mode_opens_witness :
  NativeOpenNonAsset 1 0 (Some "a.xml") ACCESS_BUFFER
    = ([CallOpenNonAsset "a.xml" None ACCESS_BUFFER],
       Throw (FileNotFoundException "a.xml") 0)
  /\ NativeOpenNonAsset 1 2 (Some "a.xml") ACCESS_BUFFER
    = ([CallOpenNonAsset "a.xml" (Some (2 - 1)) ACCESS_BUFFER],
       Throw (FileNotFoundException "a.xml") 0).
Proof.
  split.
  - destruct (valid_access_mode_opens 1 0 ACCESS_BUFFER "a.xml")
      as (_ & Hany & _); [tauto|].
    apply Hany. lia.
  - destruct (valid_access_mode_opens 1 2 ACCESS_BUFFER "a.xml")
      as (_ & _ & Hone); [tauto|].
    apply Hone; [unfold INT32_MAX; lia|cbn; lia].
Defined.

Lemma short_indices_not_passed_witness :
  NativeResolveAttrs plain_env 1 (NewTheme 1) 0 0 None [5] (replicate 7 0)
    (Some [3])
  = returning_indices (Some [3])
      (NativeResolveAttrs plain_env 1 (NewTheme 1) 0 0 None [5] (replicate 7 0)
         None)
  /\ NativeRetrieveAttributes plain_env 1 0 [5] (replicate 7 0) (Some [3])
    = returning_indices (Some [3])
        (NativeRetrieveAttributes plain_env 1 0 [5] (replicate 7 0) None).
Proof.
  apply (short_indices_not_passed plain_env 1 0 (NewTheme 1) 0 0 None [5]
           (replicate 7 0) [3]).
  cbn. lia.
Defined.

Lemma NativeThemeRebase_prefix_witness :
  NativeThemeRebase plain_env 1 (NewTheme 1) (Some [202; 200; 201])
    (Some [false; true]) 1
  = NativeThemeRebase plain_env 1 (NewTheme 1) (Some [202]) (Some [false]) 1.
Proof.
  destruct (NativeThemeRebase_prefix plain_env 1 (NewTheme 1) [202; 200; 201]
              [false; true] 1) as [Hprefix _]; [cbn; lia|cbn; lia|].
  exact Hprefix.
Defined.

Lemma undersized_values_rejected_witness :
  NativeResolveAttrs plain_env 2 (NewTheme 1) 0 0 None [5] [0; 0; 0] None
    = Throw (IndexOutOfBoundsException "outValues too small")
        (false, {| out_values := [0; 0; 0]; out_indices := None |})
  /\ NativeRetrieveAttributes plain_env 2 0 [5] [0; 0; 0] None
    = Throw (IndexOutOfBoundsException "outValues too small")
        (false, {| out_values := [0; 0; 0]; out_indices := None |}).
Proof.
  apply (undersized_values_rejected plain_env 2 0 (NewTheme 1) 0 0 None [5]
           [0; 0; 0] None).
  vm_compute. split; [reflexivity|discriminate].
Defined.
